(** * nlpia.web: URL handling and Google-Drive download helpers

    A shallow embedding of [src/nlpia/web.py].  Python text is a list of
    code points, the module's functions run in a state-and-exception monad
    over an event trace and a file system, and the libraries the module
    calls (urllib, requests, lxml, os.path, nlpia.futil) are an interface
    the functions are parameterised over. *)

From stdpp Require Import gmap strings list fin_maps.
From Stdlib Require Import ZArith NArith Lia Ascii.

Set Default Proof Using "Type".
Local Open Scope N_scope.
Local Open Scope nat_scope.

(** ** The Python values the module handles *)

Module Py.

(** A [str] is a sequence of Unicode code points; [bytes] a sequence of
    octets.  Both are lists of [N]. *)
Abbreviation str := (list N).
Abbreviation bytes := (list N).

(** A literal of the source, written as a Rocq string. *)
Definition lit (s : string) : str := N_of_ascii <$> String.list_ascii_of_string s.

(** [str.isspace] on one code point: the characters of bidirectional
    type WS, B or S, and of category Zs. *)
Definition isspace (c : N) : bool :=
  ((9 <=? c) && (c <=? 13) || (28 <=? c) && (c <=? 32)
   || (c =? 133) || (c =? 160) || (c =? 5760)
   || (8192 <=? c) && (c <=? 8202)
   || (c =? 8232) || (c =? 8233) || (c =? 8239) || (c =? 8287)
   || (c =? 12288))%N.

(** The one-character string holding a double quote. *)
Definition dquote : str := [34%N].

(** [c in chars] for a single character. *)
Definition char_in (chars : str) (c : N) : bool :=
  existsb (N.eqb c) chars.

Fixpoint dropwhile (p : N → bool) (s : str) : str :=
  match s with
  | [] => []
  | c :: s' => if p c then dropwhile p s' else s
  end.

(** [s.rstrip()], [s.rstrip(chars)], [s.lstrip()] and [s.strip()]. *)
Definition rstrip_by (p : N → bool) (s : str) : str :=
  rev (dropwhile p (rev s)).
Definition rstrip (s : str) : str := rstrip_by isspace s.
Definition rstrip_chars (chars s : str) : str := rstrip_by (char_in chars) s.
Definition lstrip (s : str) : str := dropwhile isspace s.
Definition strip (s : str) : str := rstrip (lstrip s).

(** [s.startswith(prefix)] and [s.endswith(suffix)]. *)
Fixpoint startswith (s prefix : str) {struct prefix} : bool :=
  match prefix, s with
  | [], _ => true
  | _ :: _, [] => false
  | a :: p', b :: s' => (a =? b)%N && startswith s' p'
  end.
Definition endswith (s suffix : str) : bool :=
  startswith (rev s) (rev suffix).

(** [s.find(sub)]: the lowest index at which [sub] occurs, [None] where
    Python answers -1. *)
Fixpoint find (s sub : str) : option nat :=
  if startswith s sub then Some 0
  else match s with
       | [] => None
       | _ :: s' => S <$> find s' sub
       end.

(** [sub in s]. *)
Definition contains (sub s : str) : bool :=
  match find s sub with Some _ => true | None => false end.

(** [s.split(sep)] for a non-empty [sep]: cut at the leftmost occurrence,
    go on after it.  Every cut consumes at least one character, so
    [length s] rounds are enough. *)
Fixpoint split_loop (rounds : nat) (s sep : str) : list str :=
  match rounds with
  | 0 => [s]
  | S n =>
      match find s sep with
      | None => [s]
      | Some i => take i s :: split_loop n (drop (i + length sep) s) sep
      end
  end.
Definition split (s sep : str) : list str := split_loop (length s) s sep.

(** [l[-1]] on a list known to be non-empty; [split] never returns an
    empty list. *)
Definition last_item (l : list str) : str := List.last l [].

(** [s[:-k]] for a positive [k]. *)
Definition slice_until_neg (s : str) (k : nat) : str :=
  take (length s - k) s.

(** [x or default] on an integer that may be [None]. *)
Definition int_or (x : option Z) (default : Z) : Z :=
  match x with
  | Some n => if (n =? 0)%Z then default else n
  | None => default
  end.

(** Truth value of an optional string: [None] and [''] are falsy. *)
Definition truthy (x : option str) : bool :=
  match x with
  | Some (_ :: _) => true
  | _ => false
  end.

End Py.


(** ** Drive-ID extraction (download_file_from_google_drive, lines 246-251) *)

Definition extract_driveid (driveid : Py.str) : Py.str :=
  let driveid :=
    if Py.contains (Py.lit "&id=") driveid
    then Py.last_item (Py.split driveid (Py.lit "&id="))
    else driveid in
  let driveid :=
    if Py.contains (Py.lit "?id=") driveid
    then Py.last_item (Py.split driveid (Py.lit "?id="))
    else driveid in
  driveid.

(** ** Exceptions and dynamic name lookup *)

(** An exception carries the qualified names of its class and of the
    classes it derives from (its method resolution order), and a message. *)
Record exn := { exn_mro : list string; exn_arg : string }.

Definition NameError (name : string) : exn :=
  {| exn_mro := ["builtins.NameError"; "builtins.Exception"];
     exn_arg := name |}.
Definition AttributeError (msg : string) : exn :=
  {| exn_mro := ["builtins.AttributeError"; "builtins.Exception"];
     exn_arg := msg |}.
Definition TypeError (msg : string) : exn :=
  {| exn_mro := ["builtins.TypeError"; "builtins.Exception"];
     exn_arg := msg |}.
Definition ValueError (msg : string) : exn :=
  {| exn_mro := ["builtins.ValueError"; "builtins.Exception"];
     exn_arg := msg |}.
Definition OSError (msg : string) : exn :=
  {| exn_mro := ["builtins.OSError"; "builtins.Exception"];
     exn_arg := msg |}.

(** [requests.exceptions.ConnectionError]: an [IOError], and no subclass
    of the builtin [ConnectionError]. *)
Definition RequestsConnectionError (msg : string) : exn :=
  {| exn_mro := ["requests.exceptions.ConnectionError";
                 "requests.exceptions.RequestException";
                 "builtins.OSError"; "builtins.Exception"];
     exn_arg := msg |}.

(** [isinstance(e, cls)] for a class given by its qualified name. *)
Definition isinstance (e : exn) (cls : string) : bool :=
  bool_decide (cls ∈ exn_mro e).

(** The objects a global name can be bound to. *)
Inductive pyval :=
| PNone
| PInt (n : Z)
| PStr (s : Py.str)
| PClass (qualname : string)
| PCallable (returns : pyval)   (* called without arguments *)
| PObject (descr : string).     (* a module, a function, a logger *)

Inductive outcome (A : Type) :=
| Ok (a : A)
| Raise (e : exn).
Arguments Ok {A} a.
Arguments Raise {A} e.

(** The names of the [builtins] module of Python 3.7. *)
Definition builtin_exception_names : list string :=
  ["ArithmeticError"; "AssertionError"; "AttributeError"; "BaseException";
   "BlockingIOError"; "BrokenPipeError"; "BufferError"; "BytesWarning";
   "ChildProcessError"; "ConnectionAbortedError"; "ConnectionError";
   "ConnectionRefusedError"; "ConnectionResetError"; "DeprecationWarning";
   "EOFError"; "EnvironmentError"; "Exception"; "FileExistsError";
   "FileNotFoundError"; "FloatingPointError"; "FutureWarning";
   "GeneratorExit"; "IOError"; "ImportError"; "ImportWarning";
   "IndentationError"; "IndexError"; "InterruptedError";
   "IsADirectoryError"; "KeyError"; "KeyboardInterrupt"; "LookupError";
   "MemoryError"; "ModuleNotFoundError"; "NameError"; "NotADirectoryError";
   "NotImplementedError"; "OSError"; "OverflowError";
   "PendingDeprecationWarning"; "PermissionError"; "ProcessLookupError";
   "RecursionError"; "ReferenceError"; "ResourceWarning"; "RuntimeError";
   "RuntimeWarning"; "StopAsyncIteration"; "StopIteration"; "SyntaxError";
   "SyntaxWarning"; "SystemError"; "SystemExit"; "TabError"; "TimeoutError";
   "TypeError"; "UnboundLocalError"; "UnicodeDecodeError";
   "UnicodeEncodeError"; "UnicodeError"; "UnicodeTranslateError";
   "UnicodeWarning"; "UserWarning"; "ValueError"; "Warning";
   "ZeroDivisionError"].

Definition builtin_other_names : list string :=
  ["Ellipsis"; "False"; "None"; "NotImplemented"; "True"; "__build_class__";
   "__debug__"; "__doc__"; "__import__"; "__loader__"; "__name__";
   "__package__"; "__spec__"; "abs"; "all"; "any"; "ascii"; "bin"; "bool";
   "breakpoint"; "bytearray"; "bytes"; "callable"; "chr"; "classmethod";
   "compile"; "complex"; "copyright"; "credits"; "delattr"; "dict"; "dir";
   "divmod"; "enumerate"; "eval"; "exec"; "exit"; "filter"; "float";
   "format"; "frozenset"; "getattr"; "globals"; "hasattr"; "hash"; "help";
   "hex"; "id"; "input"; "int"; "isinstance"; "issubclass"; "iter"; "len";
   "license"; "list"; "locals"; "map"; "max"; "memoryview"; "min"; "next";
   "object"; "oct"; "open"; "ord"; "pow"; "print"; "property"; "quit";
   "range"; "repr"; "reversed"; "round"; "set"; "setattr"; "slice";
   "sorted"; "staticmethod"; "str"; "sum"; "super"; "tuple"; "type"; "vars";
   "zip"].

Definition builtins : gmap string pyval :=
  list_to_map
    (((λ n, (n, PClass ("builtins." +:+ n))) <$> builtin_exception_names)
     ++ ((λ n, (n, PObject ("builtins." +:+ n))) <$> builtin_other_names)).

(** Lines 24-39. *)
Definition GOOGLE_DRIVEID_FILENAMES : string := "
1VWkj1oQS2RUhyJXckx3OaDYs5fx2mMCq VGG_ILSVRC2016_SSD_300x300_iter_440000.h5
1LcBPsd9CJbuBw4KiSuE1o1fMA-Pz2Zvw VGG_ilsvrc15_SSD_500x500_iter_480000.h5
1IJWZKmjkcFMlvaz2gYukzFx4d6mH3py5 VGG_coco_SSD_512x512_iter_360000.h5
1vmEF7FUsWfHquXyCqO17UaXOPpRbwsdj VGG_coco_SSD_300x300_iter_400000.h5
121-kCXaOHOkJE_Kf5lKcJvC_5q1fYb_q VGG_VOC0712_SSD_300x300_iter_120000.h5
19NIa0baRCFYT3iRxQkOKCD7CpN6BFO8p VGG_VOC0712_SSD_512x512_iter_120000.h5
1M99knPZ4DpY9tI60iZqxXsAxX2bYWDvZ VGG_VOC0712Plus_SSD_300x300_iter_240000.h5
18nFnqv9fG5Rh_fx6vUtOoQHOLySt4fEx VGG_VOC0712Plus_SSD_512x512_iter_240000.h5
17G1J4zEpFwiOzgBmq886ci4P3YaIz8bY VGG_coco_SSD_300x300.h5
1wGc368WyXSHZOv4iow2tri9LnB0vm9X- VGG_coco_SSD_512x512.h5
1vtNI6kSnv7fkozl7WxyhGyReB6JvDM41 VGG_VOC0712_SSD_300x300_ft_iter_120000.h
14mELuzm0OvXnwjb0mzAiG-Ake9_NP_LQ VGG_VOC0712_SSD_512x512_ft_iter_120000.h5
1fyDDUcIOSjeiP08vl1WCndcFdtboFXua VGG_VOC0712Plus_SSD_300x300_ft_iter_160000.h5
1a-64b6y6xsQr5puUsHX_wxI1orQDercM VGG_VOC0712Plus_SSD_512x512_ft_iter_160000.h5
".

(** The global namespace the functions of web.py run in: one entry per
    import, assignment and [def] of the module.  The bare expression
    statement [live_stream] on line 239 binds nothing; the functions are
    modelled as defined, before and after it. *)
Definition web_globals : gmap string pyval :=
  list_to_map
    [("os", PObject "module os");
     ("requests", PObject "module requests");
     ("sys", PObject "module sys");
     ("urlparse", PObject "urllib.parse.urlparse");
     ("URLError", PClass "urllib.error.URLError");
     ("tqdm", PObject "tqdm.tqdm");
     ("parse_html", PObject "lxml.html.fromstring");
     ("logging", PObject "module logging");
     ("expand_filepath", PObject "nlpia.futil.expand_filepath");
     ("logger", PObject "logging.Logger nlpia.web");
     ("GOOGLE_DRIVE_PREFIX", PStr (Py.lit "https://drive.google.com/open?id="));
     ("GOOGLE_DRIVEID_FILENAMES", PStr (Py.lit GOOGLE_DRIVEID_FILENAMES));
     ("read_http_status_codes", PObject "function");
     ("http_status_code", PObject "function");
     ("looks_like_url", PObject "function");
     ("try_parse_url", PObject "function");
     ("get_url_filemeta", PObject "function");
     ("get_url_title", PObject "function");
     ("get_url_id", PObject "function");
     ("get_url_filename", PObject "function");
     ("get_response_confirmation_token", PObject "function");
     ("save_response_content", PObject "function");
     ("download_file_from_google_drive", PObject "function")].

(** ** The world the module acts on *)

(** The keyword arguments of [requests.get] and [Session.get] that the
    module passes. *)
Record request := {
  req_url : Py.str;
  req_params : gmap Py.str Py.str;
  req_stream : bool
}.

(** What the module reads of a [requests.Response]: the cookie jar's
    [items()], the body, and [iter_content(chunk_size)]. *)
Record response := {
  cookies : list (Py.str * Py.str);
  content : Py.bytes;
  iter_content : option Z → list Py.bytes
}.

(** The named tuple [urllib.parse.ParseResult]. *)
Record ParseResult := {
  scheme : Py.str;
  netloc : Py.str;
  path : Py.str;
  params : Py.str;
  query : Py.str;
  fragment : Py.str
}.

Inductive event :=
| EvLog (level : string) (msg : pyval)
| EvRequestsGet (req : request)
| EvSessionGet (req : request)
| EvOpen (path : Py.str)
| EvIterContent (chunk_size : option Z)
| EvWrite (path : Py.str) (data : Py.bytes)
| EvClose (path : Py.str).

Record world := {
  events : list event;              (* oldest first *)
  files : gmap Py.str Py.bytes      (* contents of the files written *)
}.

(** The libraries behind the module's imports. *)
Class Libs := {
  (* urllib.parse *)
  urlparse : Py.str → outcome ParseResult;
  geturl : ParseResult → Py.str;
  (* requests: the answer of the network to a GET *)
  http_get : request → outcome response;
  (* lxml.html: [parse_html(content).findtext('.//title')] *)
  html_title : Py.bytes → outcome (option Py.str);
  (* nlpia.futil and os *)
  expand_filepath : Py.str → Py.str;
  abspath : Py.str → Py.str;
  openable : Py.str → bool          (* does [open(path, "wb")] succeed *)
}.

(** ** The monad: state over [world], with exceptions *)

Definition M (A : Type) : Type := world → outcome A * world.

Definition ret {A} (a : A) : M A := λ w, (Ok a, w).
Definition bind {A B} (m : M A) (f : A → M B) : M B := λ w,
  match m w with
  | (Ok a, w') => f a w'
  | (Raise e, w') => (Raise e, w')
  end.

Notation "'let*' x ':=' m 'in' k" := (bind m (λ x, k))
  (at level 10, x binder, m at level 100, k at level 200).
Notation "'let*' ' p ':=' m 'in' k" := (bind m (λ x, match x with p => k end))
  (at level 10, p strict pattern, m at level 100, k at level 200).

Definition raise {A} (e : exn) : M A := λ w, (Raise e, w).
Definition call {A} (o : outcome A) : M A := λ w, (o, w).
Definition emit (ev : event) : M unit := λ w,
  (Ok tt, {| events := events w ++ [ev]; files := files w |}).

(** [try: body  except ...: handler]; the handler re-raises what no clause
    of it matches. *)
Definition try_except {A} (body : M A) (handler : exn → M A) : M A := λ w,
  match body w with
  | (Raise e, w') => handler e w'
  | r => r
  end.

(** [try: body  finally: cleanup], as the [with] statement needs it. *)
Definition try_finally {A} (body : M A) (cleanup : M unit) : M A := λ w,
  match body w with
  | (Ok a, w') => (let* _ := cleanup in ret a) w'
  | (Raise e, w') => (let* _ := cleanup in raise e) w'
  end.

Fixpoint for_each {A} (l : list A) (body : A → M unit) : M unit :=
  match l with
  | [] => ret tt
  | x :: l' => let* _ := body x in for_each l' body
  end.

(** Loading a name that is not a local variable: module globals first,
    then builtins, else [NameError]. *)
Definition load_name (g : gmap string pyval) (name : string) : M pyval :=
  match g !! name with
  | Some v => ret v
  | None =>
      match builtins !! name with
      | Some v => ret v
      | None => raise (NameError name)
      end
  end.

(** Does exception [e] match the value [v] of an [except] clause? *)
Definition exc_matches (e : exn) (v : pyval) : M bool :=
  match v with
  | PClass cls => ret (isinstance e cls)
  | _ => raise (TypeError "catching classes that do not inherit from BaseException is not allowed")
  end.

Fixpoint exc_matches_any (e : exn) (vs : list pyval) : M bool :=
  match vs with
  | [] => ret false
  | v :: vs' =>
      let* b := exc_matches e v in
      let* b' := exc_matches_any e vs' in
      ret (b || b')
  end.

Definition py_call (f : pyval) : M pyval :=
  match f with
  | PCallable r => ret r
  | _ => raise (TypeError "object is not callable")
  end.

Definition as_str (v : pyval) : M Py.str :=
  match v with
  | PStr s => ret s
  | _ => raise (TypeError "argument is not a str")
  end.

(** [logger.info], [logger.warn], [logging.error], [logging.warn]. *)
Definition log (level : string) (msg : pyval) : M unit :=
  emit (EvLog level msg).

(** [os.path.sep] and [os.path.join(a, b)] of posixpath. *)
Definition os_path_sep : Py.str := Py.lit "/".
Definition os_path_join (a b : Py.str) : Py.str :=
  if Py.startswith b os_path_sep then b
  else if bool_decide (a = []) || Py.endswith a os_path_sep then a ++ b
  else a ++ os_path_sep ++ b.

(** [str.format] of one argument that may be [None]. *)
Definition format_arg (x : option Py.str) : Py.str :=
  match x with
  | Some s => s
  | None => Py.lit "None"
  end.

(** ** The functions of web.py *)

Section web.
Context `{Libs}.

(** The module's globals at the time of the call. *)
Variable g : gmap string pyval.

(** [requests.get(url, stream=False, allow_redirects=True, timeout=5)] *)
Definition requests_get (req : request) : M response :=
  let* _ := emit (EvRequestsGet req) in call (http_get req).

(** [session.get(URL, params=params, stream=True)] *)
Definition session_get (req : request) : M response :=
  let* _ := emit (EvSessionGet req) in call (http_get req).

(** Lines 103-123.  A [return] inside an [except] clause leaves the
    function: the [try] yields [inr] of the returned value then, and
    [inl] of what the body bound otherwise. *)
Definition try_parse_url (url : Py.str) : M (option ParseResult) :=
  if length (Py.strip url) <? 4 then
    let* _ := log "info" (PStr (Py.lit "URL too short: " ++ url)) in
    ret None
  else
    let* r :=
      try_except
        (let* parsed_url := call (urlparse url) in ret (inl parsed_url))
        (λ e,
           if isinstance e "builtins.ValueError" then
             let* _ := log "info" (PStr (Py.lit "Parse URL ValueError: " ++ url)) in
             ret (inr None)
           else raise e) in
    match r with
    | inr v => ret v
    | inl parsed_url =>
        if negb (bool_decide (scheme parsed_url = [])) then
          ret (Some parsed_url)
        else
          let* r :=
            try_except
              (let* parsed_url :=
                 call (urlparse (Py.lit "http://" ++ geturl parsed_url)) in
               ret (inl parsed_url))
              (λ e,
                 if isinstance e "builtins.ValueError" then
                   let* _ :=
                     log "info"
                       (PStr (Py.lit "Invalid URL for assumed http scheme: urlparse("
                              ++ Py.dquote ++ Py.lit "http://" ++ geturl parsed_url
                              ++ Py.dquote ++ Py.lit ") from " ++ Py.dquote
                              ++ url ++ Py.dquote ++ Py.lit " ")) in
                   ret (inr None)
                 else raise e) in
          match r with
          | inr v => ret v
          | inl parsed_url =>
              if bool_decide (scheme parsed_url = []) then
                let* _ :=
                  log "info"
                    (PStr (Py.lit "Unable to guess a scheme for URL: " ++ url)) in
                ret None
              else ret (Some parsed_url)
          end
    end.

(** Lines 170-189.  Falling off the end of an [except] clause falls off
    the end of the function, which returns [None]. *)
Definition get_url_title (url : Py.str) : M (option Py.str) :=
  let* parsed_url := try_parse_url url in
  match parsed_url with
  | None => ret None
  | Some parsed_url =>
      try_except
        (let* r := requests_get {| req_url := geturl parsed_url;
                                   req_params := ∅; req_stream := false |} in
         let* title := call (html_title (content r)) in
         ret title)
        (λ e,
           let* c := load_name g "ConnectionError" in
           let* hit := exc_matches e c in
           if hit then
             let* _ :=
               log "error"
                 (PStr (Py.lit "Unable to connect to internet to retrieve URL "
                        ++ geturl parsed_url)) in
             let* format_exc := load_name g "format_exc" in
             let* tb := py_call format_exc in
             let* _ := log "error" tb in
             ret None
           else
             let* c1 := load_name g "InvalidURL" in
             let* c2 := load_name g "InvalidSchema" in
             let* c3 := load_name g "InvalidHeader" in
             let* c4 := load_name g "MissingSchema" in
             let* hit := exc_matches_any e [c1; c2; c3; c4] in
             if hit then
               let* _ :=
                 log "warn"
                   (PStr (Py.lit "Unable to retrieve URL " ++ geturl parsed_url)) in
               let* format_exc := load_name g "format_exc" in
               let* tb := py_call format_exc in
               let* _ := log "error" tb in
               ret None
             else raise e)
  end.

(** The tail [get_url_filename] cuts from a title: line 211. *)
Definition strip_drive_suffix (filename : Py.str) : Py.str :=
  Py.rstrip
    (Py.rstrip_chars (Py.lit "-:")
       (Py.rstrip (Py.slice_until_neg filename (length (Py.lit "Google Drive"))))).

(** Line 207: [url or 'https://drive.google.com/open?id={}'.format(driveid)]. *)
Definition url_or_drive_page (url driveid : option Py.str) : Py.str :=
  if Py.truthy url then default [] url
  else Py.lit "https://drive.google.com/open?id=" ++ format_arg driveid.

(** Lines 197-213. *)
Definition get_url_filename (url driveid : option Py.str) : M (option Py.str) :=
  let url := url_or_drive_page url driveid in
  if Py.startswith url (Py.lit "https://drive.google.com") then
    let* filename := get_url_title url in
    match filename with
    | None =>
        raise (AttributeError "'NoneType' object has no attribute 'endswith'")
    | Some filename =>
        let filename :=
          if Py.endswith filename (Py.lit "Google Drive")
          then strip_drive_suffix filename
          else filename in
        ret (Some filename)
    end
  else
    let* _ :=
      log "warn"
        (PStr (Py.lit "Unable to find filename for the URL "
               ++ Py.dquote ++ url ++ Py.dquote)) in
    ret None.

(** Lines 216-220. *)
Definition get_response_confirmation_token (response : response) : option Py.str :=
  (fix loop (items : list (Py.str * Py.str)) : option Py.str :=
     match items with
     | [] => None
     | (key, value) :: rest =>
         if Py.startswith key (Py.lit "download_warning") then Some value
         else loop rest
     end) (cookies response).

(** [open(path, "wb")]: creates or truncates the file. *)
Definition open_wb (path : Py.str) : M unit := λ w,
  if openable path then
    (Ok tt, {| events := events w ++ [EvOpen path];
               files := <[path := []]> (files w) |})
  else (Raise (OSError "cannot open for writing"), w).

(** [f.write(chunk)] *)
Definition file_write (path : Py.str) (data : Py.bytes) : M unit := λ w,
  (Ok tt, {| events := events w ++ [EvWrite path data];
             files := <[path := default [] (files w !! path) ++ data]> (files w) |}).

(** [response.iter_content(chunk_size)]: the size must be an [int] or
    [None]. *)
Definition response_iter_content (response : response) (chunk_size : pyval)
  : M (list Py.bytes) :=
  match chunk_size with
  | PInt n =>
      let* _ := emit (EvIterContent (Some n)) in
      ret (iter_content response (Some n))
  | PNone =>
      let* _ := emit (EvIterContent None) in
      ret (iter_content response None)
  | _ => raise (TypeError "chunk_size must be an int")
  end.

(** Lines 226-230: where the writer writes. *)
Definition destination_path (filename destination : Py.str) : Py.str :=
  let full_destination_path :=
    if Py.contains os_path_sep filename then filename
    else os_path_join destination filename in
  expand_filepath full_destination_path.

(** Lines 223-235.  [tqdm] only reports progress and is left out. *)
Definition save_response_content (response : response) (filename : Py.str)
    (destination : Py.str) (chunksize : option Z) : M Py.str :=
  let chunksize := Py.int_or chunksize 32768 in
  let full_destination_path := destination_path filename destination in
  let* _ := open_wb full_destination_path in
  let* _ :=
    try_finally
      (let* CHUNK_SIZE := load_name g "CHUNK_SIZE" in
       let* chunks := response_iter_content response CHUNK_SIZE in
       for_each chunks (λ chunk : Py.bytes,
         if bool_decide (chunk = []) then ret tt   (* keep-alive chunk *)
         else file_write full_destination_path chunk))
      (emit (EvClose full_destination_path)) in
  ret full_destination_path.

(** Lines 253-262: the initial request and, on a token, the confirmed
    one. *)
Definition download_url : Py.str :=
  Py.lit "https://docs.google.com/uc?export=download".

Definition initial_request (driveid : Py.str) : request :=
  {| req_url := download_url;
     req_params := {[ Py.lit "id" := driveid ]};
     req_stream := true |}.

Definition confirmed_request (driveid token : Py.str) : request :=
  {| req_url := download_url;
     req_params := <[ Py.lit "confirm" := token ]> {[ Py.lit "id" := driveid ]};
     req_stream := true |}.

Definition confirmation_handshake (driveid : Py.str) : M response :=
  let* response := session_get (initial_request driveid) in
  let token := get_response_confirmation_token response in
  if Py.truthy token then
    session_get (confirmed_request driveid (default [] token))
  else ret response.

(** Lines 246-264: everything before the save step. *)
Definition download_steps_before_save (driveid : Py.str)
    (filename : option Py.str) : M (response * option Py.str) :=
  let driveid := extract_driveid driveid in
  let* response := confirmation_handshake driveid in
  let* filename :=
    (if Py.truthy filename then ret filename
     else get_url_filename None (Some driveid)) in
  ret (response, filename).

(** Lines 240-268.  The writer is called with the default chunk size. *)
Definition download_file_from_google_drive (driveid : Py.str)
    (filename : option Py.str) (destination : Py.str) : M Py.str :=
  let* '(response, filename) := download_steps_before_save driveid filename in
  let* fileanme := load_name g "fileanme" in
  let* fileanme := as_str fileanme in
  let* full_destination_path :=
    save_response_content response fileanme destination (Some 32768%Z) in
  ret (abspath destination).

End web.

(** ** Stand-ins for the libraries, to run the functions on inputs *)

Module Ref.

(** [s.split(c, 1)] when the character [c] occurs in [s]. *)
Definition split_once (s : Py.str) (c : N) : option (Py.str * Py.str) :=
  match Py.find s [c] with
  | Some i => Some (take i s, drop (S i) s)
  | None => None
  end.

Definition scheme_chars : Py.str :=
  Py.lit "abcdefghijklmnopqrstuvwxyzABCDEFGHIJKLMNOPQRSTUVWXYZ0123456789+-.".

Definition lower (c : N) : N :=
  if ((65 <=? c) && (c <=? 90))%N then (c + 32)%N else c.

(** [_splitnetloc(url, 2)] on the text after the two slashes: the
    network location ends at the first of [/], [?] and [#]. *)
Fixpoint splitnetloc (rest : Py.str) : Py.str * Py.str :=
  match rest with
  | [] => ([], [])
  | c :: rest' =>
      if Py.char_in (Py.lit "/?#") c then ([], rest)
      else let '(n, r) := splitnetloc rest' in (c :: n, r)
  end.

(** [urllib.parse.urlparse(url)]: scheme, network location with its
    bracket check, fragment and query.  Not modelled: the [;parameters]
    of the last path segment (they stay in [path]), the rule of older
    releases that reads [host:123] as a path, and the stripping of
    control characters and the letter a scheme must start with in newer
    ones. *)
Definition urlparse (url : Py.str) : outcome ParseResult :=
  let '(scheme, url) :=
    match Py.find url (Py.lit ":") with
    | Some (S i) =>
        if forallb (Py.char_in scheme_chars) (take (S i) url)
        then (lower <$> take (S i) url, drop (S (S i)) url)
        else ([], url)
    | _ => ([], url)
    end in
  let '(netloc, url) :=
    if Py.startswith url (Py.lit "//") then splitnetloc (drop 2 url)
    else ([], url) in
  if xorb (Py.char_in netloc 91%N) (Py.char_in netloc 93%N)
  then Raise (ValueError "Invalid IPv6 URL")
  else
    let '(url, fragment) :=
      match split_once url 35%N with Some r => r | None => (url, []) end in
    let '(url, query) :=
      match split_once url 63%N with Some r => r | None => (url, []) end in
    Ok {| scheme := scheme; netloc := netloc; path := url; params := [];
          query := query; fragment := fragment |}.

(** The schemes that [urllib.parse] knows to take a network location. *)
Definition uses_netloc : list Py.str :=
  Py.lit <$> ["ftp"; "http"; "gopher"; "nntp"; "telnet"; "imap"; "wais";
              "file"; "mms"; "https"; "shttp"; "snews"; "prospero"; "rtsp";
              "rtspu"; "rsync"; "svn"; "svn+ssh"; "sftp"; "nfs"; "git";
              "git+ssh"; "ws"; "wss"].

(** [ParseResult.geturl()], that is [urlunparse]. *)
Definition geturl (p : ParseResult) : Py.str :=
  let url := path p in
  let url := if bool_decide (params p = []) then url
             else url ++ Py.lit ";" ++ params p in
  let url :=
    if negb (bool_decide (netloc p = []))
       || (bool_decide (scheme p ∈ uses_netloc)
           && negb (Py.startswith url (Py.lit "//")))
    then Py.lit "//" ++ netloc p
         ++ (if negb (bool_decide (url = [])) && negb (Py.startswith url (Py.lit "/"))
             then Py.lit "/" ++ url else url)
    else url in
  let url := if bool_decide (scheme p = []) then url
             else scheme p ++ Py.lit ":" ++ url in
  let url := if bool_decide (query p = []) then url
             else url ++ Py.lit "?" ++ query p in
  if bool_decide (fragment p = []) then url
  else url ++ Py.lit "#" ++ fragment p.

(** [expand_filepath]: a leading [~] becomes the home directory. *)
Definition expand_filepath (p : Py.str) : Py.str :=
  match p with
  | 126%N :: rest => Py.lit "/home/user" ++ rest
  | _ => p
  end.

Definition abspath (p : Py.str) : Py.str :=
  if Py.startswith p (Py.lit "/") then p
  else if bool_decide (p = Py.lit ".") then Py.lit "/cwd"
  else Py.lit "/cwd/" ++ p.

(** The libraries over a given network and a given title reader, on a
    file system where every path below [/nonexistent] cannot be opened. *)
Definition libs (net : request → outcome response)
    (title : Py.bytes → outcome (option Py.str)) : Libs :=
  Build_Libs urlparse geturl net title expand_filepath abspath
  (λ p, negb (Py.startswith p (Py.lit "/nonexistent"))).

Definition empty_world : world := {| events := []; files := ∅ |}.

(** A server that answers every GET with the same response. *)
Definition constant_net (r : response) : request → outcome response :=
  λ _, Ok r.

(** A response whose body arrives as the given chunks, whatever the
    chunk size asked for. *)
Definition response_of (cs : list (Py.str * Py.str)) (body : list Py.bytes)
  : response :=
  {| cookies := cs; content := concat body; iter_content := λ _, body |}.

(** The title reader of a page whose bytes are its title. *)
Definition title_is_content (b : Py.bytes) : outcome (option Py.str) :=
  Ok (Some b).

(** A server that challenges every download with the warning cookie
    of the given value. *)
Definition challenging (token : Py.str) : Libs :=
  libs (constant_net
          (response_of [(Py.lit "download_warning_13Ab", token)] []))
    title_is_content.

(** No network to speak of: every GET is answered by an empty page. *)
Definition offline : Libs :=
  libs (constant_net (response_of [] [])) title_is_content.

End Ref.


(** ** The vocabulary of the statements *)

(** [sep] occurs in [s]. *)
Definition occurs (sep s : Py.str) : Prop := ∃ p t, s = p ++ sep ++ t.

(** [t] is what follows the last occurrence of [sep] in [s]. *)
Definition after_last (sep s t : Py.str) : Prop :=
  ∃ p, s = p ++ sep ++ t ∧ ∀ p' t', s = p' ++ sep ++ t' → length p' ≤ length p.

(** Drive-ID extraction with the [?id=] rule applied only when the [&id=]
    rule does not apply. *)
Definition extraction_as_specified (s : Py.str) : Prop :=
  (occurs (Py.lit "&id=") s → after_last (Py.lit "&id=") s (extract_driveid s))
  ∧ (¬ occurs (Py.lit "&id=") s → occurs (Py.lit "?id=") s →
     after_last (Py.lit "?id=") s (extract_driveid s))
  ∧ (¬ occurs (Py.lit "&id=") s → ¬ occurs (Py.lit "?id=") s →
     extract_driveid s = s).

(** [s] ends in a character that satisfies [P]. *)
Definition ends_with (P : N → bool) (s : Py.str) : Prop :=
  ∃ s' c, s = s' ++ [c] ∧ P c = true.

(** [stem] is [title] without its suffix "Google Drive", without the
    separators [-] and [:] that stand right before the suffix, and without
    the whitespace around those separators. *)
Definition drive_title_stem (title stem : Py.str) : Prop :=
  ∃ ws1 seps ws2,
    title = stem ++ ws1 ++ seps ++ ws2 ++ Py.lit "Google Drive"
    ∧ forallb Py.isspace ws1 = true
    ∧ forallb (Py.char_in (Py.lit "-:")) seps = true
    ∧ forallb Py.isspace ws2 = true
    ∧ ¬ ends_with Py.isspace stem
    ∧ (seps = [] → ws1 = [])
    ∧ (ws1 = [] → ¬ ends_with (Py.char_in (Py.lit "-:")) stem).

(** The requests a run sent through the session, oldest first. *)
Definition session_gets (evs : list event) : list request :=
  omap (λ ev, match ev with EvSessionGet r => Some r | _ => None end) evs.

(** The world after the session has sent [reqs] from [w]. *)
Definition then_sent (w : world) (reqs : list request) : world :=
  {| events := events w ++ (EvSessionGet <$> reqs); files := files w |}.

(** Run from [w], the computation [m] appends events to the trace, and
    [reqs] are the requests it sends through the session, in order. *)
Definition sent_by {A} (m : M A) (w : world) (reqs : list request) : Prop :=
  ∃ new, events (snd (m w)) = events w ++ new ∧ session_gets new = reqs.

(** A computation that sends nothing through the session. *)
Definition quiet {A} (m : M A) : Prop := ∀ w, sent_by m w [].

(** Some cookie of the response has a key that starts with
    [download_warning]. *)
Definition has_warning_cookie (r : response) : Prop :=
  ∃ k v, (k, v) ∈ cookies r ∧ Py.startswith k (Py.lit "download_warning") = true.

(** [v] is the value of the first such cookie, in the order of the jar. *)
Definition first_warning_cookie (r : response) (v : Py.str) : Prop :=
  ∃ pre k post,
    cookies r = pre ++ (k, v) :: post
    ∧ Py.startswith k (Py.lit "download_warning") = true
    ∧ Forall (λ kv, Py.startswith kv.1 (Py.lit "download_warning") = false) pre.

(** The handshake in the specification's words, first sentence: the
    session sends a second request exactly when the initial response has
    a warning cookie. *)
Definition handshake_as_specified (L : Libs) (driveid : Py.str) (w : world) : Prop :=
  ∀ r0, http_get (initial_request driveid) = Ok r0 →
    (has_warning_cookie r0 ↔
     ∃ second,
       session_gets (events (snd (confirmation_handshake driveid w)))
       = session_gets (events w) ++ [initial_request driveid; second]).

(** The library contract [try_parse_url] relies on: on a [str],
    [urlparse] raises nothing but [ValueError]. *)
Definition urlparse_raises_value_errors `{Libs} : Prop :=
  ∀ u e, urlparse u = Raise e → isinstance e "builtins.ValueError" = true.

(** The library contract behind the guessed scheme: a text that starts
    with [http://] parses with the scheme [http]. *)
Definition urlparse_reads_http `{Libs} : Prop :=
  ∀ x q, urlparse (Py.lit "http://" ++ x) = Ok q → scheme q = Py.lit "http".

(** URL normalisation in the specification's words: a string that parses
    without a scheme comes back parsed with the scheme [http], one that
    parses with a scheme comes back as that parse. *)
Definition normalisation_as_specified (L : Libs) (url : Py.str) : Prop :=
  ∀ w p, urlparse url = Ok p →
    (scheme p = [] →
     ∃ p', fst (try_parse_url url w) = Ok (Some p') ∧ scheme p' = Py.lit "http")
    ∧ (scheme p ≠ [] → fst (try_parse_url url w) = Ok (Some p)).

(** ** The other functions of web.py *)

(** [s.rfind(sub)]: the highest index at which [sub] occurs, [None]
    where Python answers -1. *)
Fixpoint rfind (s sub : Py.str) : option nat :=
  match s with
  | [] => if Py.startswith [] sub then Some 0 else None
  | _ :: s' =>
      match rfind s' sub with
      | Some i => Some (S i)
      | None => if Py.startswith s sub then Some 0 else None
      end
  end.

(** [os.path.basename(p)] of posixpath:
    [i = p.rfind(sep) + 1; return p[i:]]. *)
Definition os_path_basename (p : Py.str) : Py.str :=
  let i := match rfind p os_path_sep with Some i => S i | None => 0 end in
  drop i p.

(** What [get_url_filemeta] returns: [None], the [dict] it builds, or
    whatever [get_ftp_filemeta] gave it. *)
Inductive filemeta :=
| NoMeta
| Meta (d : gmap string pyval)
| FtpMeta (v : pyval).

(** What only these functions read of the libraries: two properties of a
    parsed URL, [r.headers.get(name)], and the two calls on objects the
    module never defines, [cre_url.match(url)] (is the match truthy) and
    [code_dict.get(code, None)]. *)
Class MoreLibs := {
  hostname : ParseResult → option Py.str;
  username : ParseResult → option Py.str;
  headers_get : response → Py.str → option Py.str;
  regex_match : pyval → Py.str → outcome bool;
  dict_get : pyval → pyval → outcome pyval
}.

(** A string or [None] as a value. *)
Definition opt_str (x : option Py.str) : pyval :=
  match x with
  | Some s => PStr s
  | None => PNone
  end.

(** Calling an object with one argument. *)
Definition py_call1 (f arg : pyval) : M pyval :=
  match f with
  | PCallable r => ret r
  | _ => raise (TypeError "object is not callable")
  end.

(** [isinstance(url, cls)] for a [str] [url]. *)
Definition str_isinstance (cls : pyval) : M bool :=
  match cls with
  | PClass c => ret (bool_decide (c ∈ ["builtins.str"; "builtins.object"]))
  | _ => raise (TypeError "isinstance() arg 2 must be a type or tuple of types")
  end.

Section more_web.
Context `{Libs} `{MoreLibs}.

(** The module's globals at the time of the call. *)
Variable g : gmap string pyval.


(** Lines 83-100, on a [str].  The [or] of line 98 stops at its first
    true operand. *)
Definition looks_like_url (url : Py.str) : M bool :=
  let* basestring := load_name g "basestring" in
  let* is_str := str_isinstance basestring in
  if negb is_str then ret false
  else
    let* basestring := load_name g "basestring" in
    let* is_str := str_isinstance basestring in
    if negb is_str then ret false
    else if 1024 <=? length url then ret false
    else
      let* cre_url := load_name g "cre_url" in
      let* matched := call (regex_match cre_url url) in
      if negb matched then ret false
      else ret true.

(** Lines 126-167.  The [return None] of line 167 is never reached. *)
Definition get_url_filemeta (url : Py.str) : M filemeta :=
  let* parsed_url := try_parse_url url in
  match parsed_url with
  | None => ret NoMeta
  | Some parsed_url =>
      if Py.startswith (scheme parsed_url) (Py.lit "ftp") then
        let* get_ftp_filemeta := load_name g "get_ftp_filemeta" in
        let* meta := py_call1 get_ftp_filemeta (PObject "ParseResult") in
        ret (FtpMeta meta)
      else
        let url := geturl parsed_url in
        try_except
          (let* r := requests_get {| req_url := url; req_params := ∅;
                                     req_stream := true |} in
           let remote_size :=
             match headers_get r (Py.lit "Content-Length") with
             | Some v => PStr v
             | None => PInt (-1)
             end in
           ret (Meta (list_to_map
                        [("url", PStr url);
                         ("hostname", opt_str (hostname parsed_url));
                         ("path", PStr (path parsed_url));
                         ("username", opt_str (username parsed_url));
                         ("remote_size", remote_size);
                         ("filename", PStr (os_path_basename (path parsed_url)))])))
          (λ e,
             let* c := load_name g "ConnectionError" in
             let* hit := exc_matches e c in
             if hit then ret NoMeta
             else
               let* c1 := load_name g "InvalidURL" in
               let* c2 := load_name g "InvalidSchema" in
               let* c3 := load_name g "InvalidHeader" in
               let* c4 := load_name g "MissingSchema" in
               let* hit := exc_matches_any e [c1; c2; c3; c4] in
               if hit then ret NoMeta
               else raise e)
  end.

End more_web.

(** Stand-ins for what [MoreLibs] asks of the libraries. *)
Module RefMore.

(** [netloc.rpartition('@')]: the text before the last [@], if any, and
    the text after it. *)
Definition split_userinfo (netloc : Py.str) : option Py.str * Py.str :=
  match rfind netloc (Py.lit "@") with
  | Some i => (Some (take i netloc), drop (S i) netloc)
  | None => (None, netloc)
  end.

(** The text before the first [:]. *)
Definition before_colon (s : Py.str) : Py.str :=
  match Py.find s (Py.lit ":") with
  | Some i => take i s
  | None => s
  end.

(** [ParseResult.hostname], without the brackets of IPv6 literals. *)
Definition hostname (p : ParseResult) : option Py.str :=
  let host := Ref.lower <$> before_colon (snd (split_userinfo (netloc p))) in
  if bool_decide (host = []) then None else Some host.

(** [ParseResult.username]. *)
Definition username (p : ParseResult) : option Py.str :=
  before_colon <$> fst (split_userinfo (netloc p)).

(** A server that sends no [Content-Length], and no regular expression
    or dictionary to call. *)
Definition bare : MoreLibs :=
  Build_MoreLibs hostname username (λ _ _, None)
    (λ _ _, Raise (AttributeError "no attribute 'match'"))
    (λ _ _, Raise (AttributeError "no attribute 'get'")).

(** A server that announces the length of every body. *)
Definition sized (size : Py.str) : MoreLibs :=
  Build_MoreLibs hostname username
    (λ _ name,
       if bool_decide (name = Py.lit "Content-Length") then Some size else None)
    (λ _ _, Raise (AttributeError "no attribute 'match'"))
    (λ _ _, Raise (AttributeError "no attribute 'get'")).

(** A pattern that accepts every text. *)
Definition permissive : MoreLibs :=
  Build_MoreLibs hostname username (λ _ _, None) (λ _ _, Ok true)
    (λ _ _, Raise (AttributeError "no attribute 'get'")).

(** A network on which every GET fails with the given exception. *)
Definition failing (e : exn) : Libs :=
  Ref.libs (λ _, Raise e) Ref.title_is_content.

End RefMore.

(** The builtin [ConnectionError]. *)
Definition BuiltinConnectionError (msg : string) : exn :=
  {| exn_mro := ["builtins.ConnectionError"; "builtins.OSError";
                 "builtins.Exception"];
     exn_arg := msg |}.

(** ** More vocabulary *)

(** Run from any world, [m] appends to the trace only events that satisfy
    [P], and takes the files from [f] to some [f'] with [F f f']. *)
Definition acts {A : Type} (P : event → Prop)
    (F : gmap Py.str Py.bytes → gmap Py.str Py.bytes → Prop) (m : M A) : Prop :=
  ∀ w, ∃ new,
    events (snd (m w)) = events w ++ new
    ∧ Forall P new
    ∧ F (files w) (files (snd (m w))).

Definition is_log (ev : event) : Prop :=
  match ev with EvLog _ _ => True | _ => False end.

Definition is_session_get (ev : event) : Prop :=
  match ev with EvSessionGet _ => True | _ => False end.

Definition is_title_lookup (ev : event) : Prop :=
  match ev with EvRequestsGet _ => True | _ => False end.

Definition is_file_event (ev : event) : Prop :=
  match ev with
  | EvOpen _ | EvIterContent _ | EvWrite _ _ | EvClose _ => True
  | _ => False
  end.

(** The request [get_url_title] sends for a parsed URL. *)
Definition title_request `{Libs} (p : ParseResult) : request :=
  {| req_url := geturl p; req_params := ∅; req_stream := false |}.

(** What the page of a parsed URL gives: the title that [lxml] finds in
    the body, or the exception of the request or of the parser. *)
Definition title_of_page `{Libs} (p : ParseResult) : outcome (option Py.str) :=
  match http_get (title_request p) with
  | Ok r => html_title (content r)
  | Raise e => Raise e
  end.

(** The request [get_url_filemeta] sends for a parsed URL. *)
Definition meta_request `{Libs} (p : ParseResult) : request :=
  {| req_url := geturl p; req_params := ∅; req_stream := true |}.


(** What a name is bound to, in the globals or else the builtins. *)
Definition lookup_name (g : gmap string pyval) (name : string) : outcome pyval :=
  match g !! name with
  | Some v => Ok v
  | None =>
      match builtins !! name with
      | Some v => Ok v
      | None => Raise (NameError name)
      end
  end.

(** The world after one more event. *)
Definition and_then (w : world) (ev : event) : world :=
  {| events := events w ++ [ev]; files := files w |}.

Definition is_log_or_lookup (ev : event) : Prop :=
  match ev with EvLog _ _ | EvRequestsGet _ => True | _ => False end.

Definition no_file_event (ev : event) : Prop :=
  match ev with
  | EvOpen _ | EvIterContent _ | EvWrite _ _ | EvClose _ => False
  | _ => True
  end.

Definition no_title_lookup (ev : event) : Prop :=
  match ev with EvRequestsGet _ => False | _ => True end.

(** Any two file systems. *)
Definition any_files (f f' : gmap Py.str Py.bytes) : Prop := True.

(** Two file systems that agree everywhere but at [p]. *)
Definition same_but (p : Py.str) (f f' : gmap Py.str Py.bytes) : Prop :=
  ∀ q, q ≠ p → f' !! q = f !! q.

(** ** Facts about the string operations *)

Module PyFacts.

Lemma startswith_app (p t : Py.str) : Py.startswith (p ++ t) p = true.
Proof.
  induction p as [|a p IH]; simpl; [done|].
  by rewrite N.eqb_refl, IH.
Qed.

Lemma startswith_inv (s p : Py.str) :
  Py.startswith s p = true → ∃ t, s = p ++ t.
Proof.
  revert s; induction p as [|a p IH]; intros s Hs; simpl in *.
  - by exists s.
  - destruct s as [|b s]; [done|].
    apply andb_true_iff in Hs as [Hab Hs].
    apply N.eqb_eq in Hab as ->.
    destruct (IH _ Hs) as [t ->]. by exists t.
Qed.

Lemma startswith_iff (s p : Py.str) :
  Py.startswith s p = true ↔ ∃ t, s = p ++ t.
Proof.
  split; [apply startswith_inv|]. intros [t ->]. apply startswith_app.
Qed.

(** [find] answers the least position of an occurrence. *)
Lemma find_Some (s sub : Py.str) (i : nat) :
  Py.find s sub = Some i →
  ∃ p t, s = p ++ sub ++ t ∧ length p = i
         ∧ ∀ p' t', s = p' ++ sub ++ t' → i ≤ length p'.
Proof.
  revert i; induction s as [|c s IH]; intros i; simpl.
  - destruct (Py.startswith [] sub) eqn:E; [|done].
    intros [= <-]. apply startswith_inv in E as [t Ht].
    exists [], t. split_and!; [done | done | intros; lia].
  - destruct (Py.startswith (c :: s) sub) eqn:E.
    + intros [= <-]. apply startswith_inv in E as [t Ht].
      exists [], t. split_and!; [done | done | intros; lia].
    + destruct (Py.find s sub) as [j|] eqn:Ej; [|done].
      intros [= <-]. destruct (IH j eq_refl) as (p & t & -> & <- & Hmin).
      exists (c :: p), t. split_and!; [done | done |].
      intros [|c' p'] t' Heq; simpl in *.
      * rewrite Heq, startswith_app in E. done.
      * injection Heq as -> Heq. apply Hmin in Heq. lia.
Qed.

Lemma find_None (s sub : Py.str) : Py.find s sub = None → ¬ occurs sub s.
Proof.
  induction s as [|c s IH]; simpl.
  - destruct (Py.startswith [] sub) eqn:E; [done|].
    intros _ ([|??] & t & Heq); simpl in Heq; [|done].
    rewrite Heq, startswith_app in E. done.
  - destruct (Py.startswith (c :: s) sub) eqn:E; [done|].
    destruct (Py.find s sub) eqn:Ej; [done|].
    intros _ ([|c' p] & t & Heq); simpl in *.
    + rewrite Heq, startswith_app in E. done.
    + injection Heq as -> Heq. apply IH; [done|]. by exists p, t.
Qed.

Lemma contains_iff (sub s : Py.str) :
  Py.contains sub s = true ↔ occurs sub s.
Proof.
  unfold Py.contains. destruct (Py.find s sub) as [i|] eqn:E.
  - apply find_Some in E as (p & t & -> & _). split; [|done].
    intros _. by exists p, t.
  - apply find_None in E. split; [done | by intros ?].
Qed.

Lemma contains_false (sub s : Py.str) :
  Py.contains sub s = false ↔ ¬ occurs sub s.
Proof.
  rewrite <- contains_iff. destruct (Py.contains sub s); naive_solver.
Qed.

Lemma split_loop_nonempty (n : nat) (s sep : Py.str) :
  Py.split_loop n s sep ≠ [].
Proof. destruct n; simpl; [done|]. by destruct (Py.find s sep). Qed.

Lemma last_item_cons (x : Py.str) (l : list Py.str) :
  l ≠ [] → Py.last_item (x :: l) = Py.last_item l.
Proof. by destruct l. Qed.

Lemma app_eq_long (x y p z : Py.str) :
  x ++ y = p ++ z → length x ≤ length p → ∃ l, p = x ++ l ∧ y = l ++ z.
Proof.
  intros Heq Hlen.
  exists (drop (length x) p). split.
  - apply (f_equal (take (length x))) in Heq.
    rewrite take_app_length, take_app_le in Heq by done.
    by rewrite Heq at 1; rewrite take_drop.
  - apply (f_equal (drop (length x))) in Heq.
    by rewrite drop_app_length, drop_app_le in Heq.
Qed.

(** Going on after an occurrence keeps what follows the last one. *)
Lemma after_last_step (sep p t d : Py.str) :
  after_last sep t d → after_last sep (p ++ sep ++ t) d.
Proof.
  intros (q & -> & Hmax).
  exists (p ++ sep ++ q). split; [by rewrite <- !(assoc_L (++))|].
  intros p' t' Heq. rewrite !length_app.
  destruct (decide (length p + length sep ≤ length p')) as [Hfar|]; [|lia].
  rewrite (assoc_L (++) p sep) in Heq.
  apply app_eq_long in Heq as (l & -> & Hl); [|by rewrite length_app].
  apply Hmax in Hl. rewrite !length_app. lia.
Qed.

(** Separators whose first character does not come back: two
    occurrences of such a separator never overlap. *)
Section unbordered.
Variables (c : N) (rest : Py.str).
Hypothesis Hfresh : c ∉ rest.

Lemma no_overlap (p t p' t' : Py.str) :
  p ++ (c :: rest) ++ t = p' ++ (c :: rest) ++ t' →
  length p < length p' →
  length p + length (c :: rest) ≤ length p'.
Proof using Hfresh.
  intros Heq Hlt.
  destruct (decide (length p + length (c :: rest) ≤ length p'))
    as [|Hnear]; [done|].
  exfalso. apply Hfresh.
  apply (f_equal (λ l : Py.str, l !! length p')) in Heq.
  rewrite (lookup_app_r p'), Nat.sub_diag in Heq by lia.
  rewrite (lookup_app_r p) in Heq by lia.
  simpl in Heq, Hnear.
  destruct (length p' - length p) as [|k] eqn:Ek; [lia|].
  simpl in Heq. rewrite lookup_app_l in Heq by lia.
  by apply list_elem_of_lookup_2 in Heq.
Qed.

Lemma after_last_base (p t : Py.str) :
  ¬ occurs (c :: rest) t → after_last (c :: rest) (p ++ (c :: rest) ++ t) t.
Proof using Hfresh.
  intros Hno. exists p. split; [done|].
  intros p' t' Heq.
  destruct (decide (length p' ≤ length p)) as [|Hgt]; [done|].
  exfalso. apply Hno.
  pose proof (no_overlap _ _ _ _ Heq ltac:(lia)) as Hfar.
  rewrite (assoc_L (++) p) in Heq.
  apply app_eq_long in Heq as (l & -> & Hl); [|by rewrite length_app].
  by exists l, t'.
Qed.

Lemma last_split_loop (n : nat) (s : Py.str) :
  length s ≤ n →
  (¬ occurs (c :: rest) s →
   Py.last_item (Py.split_loop n s (c :: rest)) = s)
  ∧ (occurs (c :: rest) s →
     after_last (c :: rest) s (Py.last_item (Py.split_loop n s (c :: rest)))).
Proof using Hfresh.
  revert s; induction n as [|n IH]; intros s Hlen.
  - destruct s; [|simpl in Hlen; lia]. split; [done|].
    intros ([|??] & ? & ?); done.
  - simpl. destruct (Py.find s (c :: rest)) as [i|] eqn:E.
    + apply find_Some in E as (p & t & -> & <- & _).
      rewrite take_app_length.
      replace (length p + S (length rest)) with (length (p ++ c :: rest))
        by (rewrite length_app; done).
      rewrite (assoc_L (++) p (c :: rest) t), drop_app_length.
      rewrite <- (assoc_L (++) p (c :: rest) t).
      rewrite last_item_cons by apply split_loop_nonempty.
      rewrite !length_app in Hlen; simpl in Hlen.
      destruct (IH t ltac:(lia)) as [IHno IHyes].
      split; [intros []; by exists p, t|]. intros _.
      destruct (Py.find t (c :: rest)) as [j|] eqn:Et.
      * apply after_last_step, IHyes.
        apply find_Some in Et as (q & u & -> & _). by exists q, u.
      * apply find_None in Et. rewrite IHno by done.
        by apply after_last_base.
    + apply find_None in E. split; [done|]. by intros ?.
Qed.

Lemma last_split (s : Py.str) :
  occurs (c :: rest) s →
  after_last (c :: rest) s (Py.last_item (Py.split s (c :: rest))).
Proof using Hfresh. intros. by apply last_split_loop. Qed.

End unbordered.

(** What follows the last occurrence is determined. *)
Lemma after_last_unique (sep s t1 t2 : Py.str) :
  after_last sep s t1 → after_last sep s t2 → t1 = t2.
Proof.
  intros (p1 & H1 & M1) (p2 & H2 & M2).
  pose proof (M1 _ _ H2). pose proof (M2 _ _ H1).
  rewrite H1 in H2. apply app_inj_1 in H2 as [_ H2]; [|lia].
  by apply app_inv_head in H2.
Qed.

(** [dropwhile] cuts a run of [p]-characters off the front. *)
Lemma dropwhile_split (p : N → bool) (l : Py.str) :
  ∃ w, l = w ++ Py.dropwhile p l ∧ forallb p w = true
       ∧ match Py.dropwhile p l with [] => True | c :: _ => p c = false end.
Proof.
  induction l as [|c l (w & Hl & Hw & Hd)]; simpl.
  - by exists [].
  - destruct (p c) eqn:Ec.
    + exists (c :: w). simpl. rewrite Ec, Hw. by rewrite <- Hl.
    + by exists [].
Qed.

Lemma dropwhile_app_all (p : N → bool) (w l : Py.str) :
  forallb p w = true → Py.dropwhile p (w ++ l) = Py.dropwhile p l.
Proof.
  induction w as [|c w IH]; simpl; [done|].
  intros [-> Hw]%andb_true_iff. by apply IH.
Qed.

Lemma dropwhile_stuck (p : N → bool) (l : Py.str) :
  match l with [] => True | c :: _ => p c = false end → Py.dropwhile p l = l.
Proof. destruct l as [|c l]; simpl; [done|]. by intros ->. Qed.

Lemma forallb_rev (p : N → bool) (l : Py.str) :
  forallb p (rev l) = forallb p l.
Proof.
  induction l as [|c l IH]; simpl; [done|].
  rewrite forallb_app, IH. simpl. by rewrite andb_true_r, andb_comm.
Qed.

Lemma not_ends_with_rev (p : N → bool) (l : Py.str) :
  ¬ ends_with p l ↔ match rev l with [] => True | c :: _ => p c = false end.
Proof.
  destruct (rev l) as [|c r] eqn:Er.
  - apply (f_equal (@rev N)) in Er. rewrite rev_involutive in Er. subst l.
    split; [done|]. intros _ (s' & c & Hs & _). by destruct s'.
  - apply (f_equal (@rev N)) in Er. rewrite rev_involutive in Er. subst l.
    simpl. split.
    + intros Hno. destruct (p c) eqn:Ec; [|done].
      exfalso. apply Hno. by exists (rev r), c.
    + intros Hc (s' & c' & Hs & Hc').
      apply app_inj_tail in Hs as [_ <-]. congruence.
Qed.

(** [rstrip_by p] cuts the longest run of [p]-characters off the end. *)
Lemma rstrip_by_split (p : N → bool) (s : Py.str) :
  ∃ w, s = Py.rstrip_by p s ++ w ∧ forallb p w = true
       ∧ ¬ ends_with p (Py.rstrip_by p s).
Proof.
  unfold Py.rstrip_by.
  destruct (dropwhile_split p (rev s)) as (w & Hs & Hw & Hd).
  exists (rev w). split_and!.
  - rewrite <- rev_app_distr, <- Hs. by rewrite rev_involutive.
  - by rewrite forallb_rev.
  - apply not_ends_with_rev. by rewrite rev_involutive.
Qed.

Lemma rstrip_by_unique (p : N → bool) (s r w : Py.str) :
  s = r ++ w → forallb p w = true → ¬ ends_with p r → Py.rstrip_by p s = r.
Proof.
  intros -> Hw Hr. unfold Py.rstrip_by.
  rewrite rev_app_distr, dropwhile_app_all by (by rewrite forallb_rev).
  rewrite dropwhile_stuck by (by apply not_ends_with_rev).
  apply rev_involutive.
Qed.

Lemma ends_with_app (p : N → bool) (s t : Py.str) :
  t ≠ [] → ends_with p (s ++ t) ↔ ends_with p t.
Proof.
  intros Ht. destruct (exists_last Ht) as (t' & c & ->). split.
  - intros (s' & c' & Hs & Hc). rewrite (assoc_L (++)) in Hs.
    apply app_inj_tail in Hs as [_ ->]. by exists t', c'.
  - intros (s' & c' & Hs & Hc). apply app_inj_tail in Hs as [_ ->].
    exists (s ++ t'), c'. by rewrite (assoc_L (++)).
Qed.

Lemma ends_with_forallb (p q : N → bool) (t : Py.str) :
  forallb p t = true → ends_with q t → ∃ c, p c = true ∧ q c = true.
Proof.
  intros Ht (t' & c & -> & Hc). rewrite forallb_app in Ht.
  apply andb_true_iff in Ht as [_ Ht]. simpl in Ht.
  rewrite andb_true_r in Ht. eauto.
Qed.

(** A separator is not whitespace. *)
Lemma separator_not_space (c : N) :
  Py.char_in (Py.lit "-:") c = true → Py.isspace c = true → False.
Proof.
  change (Py.lit "-:") with [45%N; 58%N]. unfold Py.char_in. simpl.
  rewrite !orb_true_iff, !N.eqb_eq. intros [->|[->|?]]; [| |done]; by vm_compute.
Qed.

Lemma endswith_inv (s suffix : Py.str) :
  Py.endswith s suffix = true → ∃ t, s = t ++ suffix.
Proof.
  unfold Py.endswith. intros [t Ht]%startswith_inv.
  exists (rev t). apply (f_equal (@rev N)) in Ht.
  by rewrite rev_involutive, rev_app_distr, rev_involutive in Ht.
Qed.

Lemma slice_until_neg_app (t suffix : Py.str) :
  Py.slice_until_neg (t ++ suffix) (length suffix) = t.
Proof.
  unfold Py.slice_until_neg. rewrite length_app.
  replace (length t + length suffix - length suffix) with (length t) by lia.
  apply take_app_length.
Qed.

End PyFacts.

(** ** Drive-ID extraction *)

Lemma amp_id_unbordered : 38%N ∉ Py.lit "id=".
Proof. apply (bool_decide_unpack _). vm_compute. exact I. Qed.

Lemma question_id_unbordered : 63%N ∉ Py.lit "id=".
Proof. apply (bool_decide_unpack _). vm_compute. exact I. Qed.

(** C2, as the code has it: the [&id=] rule cuts after the last [&id=];
    the [?id=] rule is then applied to what the first rule left, whether
    or not the first rule applied; a string with neither marker is
    returned unchanged. *)
Theorem extract_driveid_spec (s : Py.str) :
  (occurs (Py.lit "&id=") s →
   ∃ t, after_last (Py.lit "&id=") s t
        ∧ (occurs (Py.lit "?id=") t →
           after_last (Py.lit "?id=") t (extract_driveid s))
        ∧ (¬ occurs (Py.lit "?id=") t → extract_driveid s = t))
  ∧ (¬ occurs (Py.lit "&id=") s → occurs (Py.lit "?id=") s →
     after_last (Py.lit "?id=") s (extract_driveid s))
  ∧ (¬ occurs (Py.lit "&id=") s → ¬ occurs (Py.lit "?id=") s →
     extract_driveid s = s).
Proof.
  unfold extract_driveid.
  destruct (Py.contains (Py.lit "&id=") s) eqn:Eamp.
  - apply PyFacts.contains_iff in Eamp.
    split_and!; [intros _ | by intros [] .. ].
    set (t := Py.last_item (Py.split s (Py.lit "&id="))).
    exists t. split; [apply (PyFacts.last_split _ _ amp_id_unbordered _ Eamp)|].
    destruct (Py.contains (Py.lit "?id=") t) eqn:Eq.
    + apply PyFacts.contains_iff in Eq. split; [|by intros []].
      intros _. apply (PyFacts.last_split _ _ question_id_unbordered _ Eq).
    + apply PyFacts.contains_false in Eq. by split.
  - apply PyFacts.contains_false in Eamp.
    split_and!; [by intros ? | intros _ Hq | intros _ Hq].
    + pose proof Hq as Hc. apply PyFacts.contains_iff in Hc. rewrite Hc.
      apply (PyFacts.last_split _ _ question_id_unbordered _ Hq).
    + apply PyFacts.contains_false in Hq. by rewrite Hq.
Qed.

(** The two URL shapes of the comments on lines 247 and 250, and a bare
    id. *)
Example extract_driveid_shapes :
  extract_driveid
    (Py.lit "https://drive.google.com/uc?export=download&id=0BwmD_VLjROrfM1BxdkxVaTY2bWs")
  = Py.lit "0BwmD_VLjROrfM1BxdkxVaTY2bWs"
  ∧ extract_driveid
      (Py.lit "https://drive.google.com/open?id=14mELuzm0OvXnwjb0mzAiG-Ake9_NP_LQ")
    = Py.lit "14mELuzm0OvXnwjb0mzAiG-Ake9_NP_LQ"
  ∧ extract_driveid (Py.lit "14mELuzm0OvXnwjb0mzAiG-Ake9_NP_LQ")
    = Py.lit "14mELuzm0OvXnwjb0mzAiG-Ake9_NP_LQ".
Proof. split_and!; vm_compute; reflexivity. Qed.

(** The [?id=] rule on the URL of line 250, where [&id=] does not occur. *)
Lemma extract_driveid_spec_witness :
  after_last (Py.lit "?id=")
    (Py.lit "https://drive.google.com/open?id=14mELuzm0OvXnwjb0mzAiG-Ake9_NP_LQ")
    (extract_driveid
       (Py.lit "https://drive.google.com/open?id=14mELuzm0OvXnwjb0mzAiG-Ake9_NP_LQ")).
Proof.
  apply (proj1 (proj2 (extract_driveid_spec _))).
  - apply PyFacts.contains_false. vm_compute. reflexivity.
  - apply PyFacts.contains_iff. vm_compute. reflexivity.
Defined.

(** C2 as the specification words it fails on a string holding both
    markers: after the [&id=] rule has cut ["a&id=b?id=c"] down to
    ["b?id=c"], the [?id=] rule cuts again and the result is ["c"]. *)
Lemma extract_driveid_applies_both_rules :
  extract_driveid (Py.lit "a&id=b?id=c") = Py.lit "c"
  ∧ after_last (Py.lit "&id=") (Py.lit "a&id=b?id=c") (Py.lit "b?id=c")
  ∧ ¬ extraction_as_specified (Py.lit "a&id=b?id=c").
Proof.
  assert (Hlast : after_last (Py.lit "&id=") (Py.lit "a&id=b?id=c") (Py.lit "b?id=c")).
  { apply (PyFacts.after_last_base _ _ amp_id_unbordered (Py.lit "a")).
    apply PyFacts.contains_false. vm_compute. reflexivity. }
  split_and!; [vm_compute; reflexivity | done |].
  intros [Hamp _].
  assert (Hocc : occurs (Py.lit "&id=") (Py.lit "a&id=b?id=c")).
  { apply PyFacts.contains_iff. vm_compute. reflexivity. }
  pose proof (PyFacts.after_last_unique _ _ _ _ (Hamp Hocc) Hlast) as Heq.
  vm_compute in Heq. discriminate Heq.
Qed.

(** ** URL normalisation *)

(** Unfolds the monad's operations and nothing else, so that the
    literals of the source stay folded. *)
Ltac run :=
  cbv [bind ret raise call try_except try_finally log emit fst snd] in *.

Lemma ref_urlparse_raises (u : Py.str) (e : exn) :
  Ref.urlparse u = Raise e → e = ValueError "Invalid IPv6 URL".
Proof.
  unfold Ref.urlparse.
  repeat (match goal with |- context [match ?x with _ => _ end] => destruct x end);
    congruence.
Qed.

Section normaliser.
Context `{Libs}.

Lemma try_parse_url_too_short (url : Py.str) (w : world) :
  length (Py.strip url) < 4 →
  try_parse_url url w
  = (Ok None,
     {| events := events w ++ [EvLog "info" (PStr (Py.lit "URL too short: " ++ url))];
        files := files w |}).
Proof.
  intros Hlen. unfold try_parse_url.
  apply Nat.ltb_lt in Hlen. rewrite Hlen. by run.
Qed.

(** C7: normalisation never raises, it returns a parsed URL or [None];
    a string whose trimmed length is below 4 gives [None], with the
    "too short" condition logged. *)
Theorem try_parse_url_never_raises (url : Py.str) (w : world) :
  urlparse_raises_value_errors →
  (∃ r w', try_parse_url url w = (Ok r, w'))
  ∧ (length (Py.strip url) < 4 →
     try_parse_url url w
     = (Ok None,
        {| events := events w ++ [EvLog "info" (PStr (Py.lit "URL too short: " ++ url))];
           files := files w |})).
Proof.
  intros Hlib. split; [|apply try_parse_url_too_short].
  destruct (decide (length (Py.strip url) < 4)) as [Hlen|Hlen].
  { rewrite try_parse_url_too_short by done. eauto. }
  unfold try_parse_url.
  apply Nat.ltb_nlt in Hlen. rewrite Hlen. run.
  destruct (urlparse url) as [p|e] eqn:E1.
  - destruct (bool_decide (scheme p = [])); run; [|eauto].
    destruct (urlparse (Py.lit "http://" ++ geturl p)) as [p'|e] eqn:E2.
    + destruct (bool_decide (scheme p' = [])); eauto.
    + rewrite (Hlib _ _ E2). eauto.
  - rewrite (Hlib _ _ E1). eauto.
Qed.

(** C8, as the code has it: on a string of trimmed length 4 or more, a
    parse that has a scheme is returned as it is; a parse without one is
    parsed again behind [http://], from its [geturl()] text, and that
    second parse is returned, with the scheme [http]; when the second
    parse raises [ValueError] the result is [None]. *)
Theorem try_parse_url_scheme (url : Py.str) (w : world) (p : ParseResult) :
  urlparse_reads_http →
  4 ≤ length (Py.strip url) →
  urlparse url = Ok p →
  (scheme p ≠ [] → try_parse_url url w = (Ok (Some p), w))
  ∧ (scheme p = [] →
     match urlparse (Py.lit "http://" ++ geturl p) with
     | Ok p' => try_parse_url url w = (Ok (Some p'), w)
                ∧ scheme p' = Py.lit "http"
     | Raise e => isinstance e "builtins.ValueError" = true →
                  fst (try_parse_url url w) = Ok None
     end).
Proof.
  intros Hhttp Hlen Hp. unfold try_parse_url.
  assert ((length (Py.strip url) <? 4) = false) as -> by (apply Nat.ltb_nlt; lia).
  run. rewrite Hp. split; intros Hs.
  - by rewrite bool_decide_eq_false_2.
  - rewrite bool_decide_eq_true_2 by done. run.
    destruct (urlparse (Py.lit "http://" ++ geturl p)) as [p'|e] eqn:E2.
    + pose proof (Hhttp _ _ E2) as Hs'.
      rewrite bool_decide_eq_false_2; [done|]. by rewrite Hs'.
    + by intros ->.
Qed.

End normaliser.


Lemma ref_urlparse_reads_http (L : Libs) :
  @urlparse L = Ref.urlparse → @urlparse_reads_http L.
Proof.
  intros HL x q. rewrite HL. unfold Ref.urlparse.
  change (Py.lit "http://" ++ x) with (Py.lit "http" ++ 58%N :: Py.lit "//" ++ x).
  change (Py.find (Py.lit "http" ++ 58%N :: Py.lit "//" ++ x) (Py.lit ":"))
    with (Some 4).
  cbv iota beta.
  change (take 4 (Py.lit "http" ++ 58%N :: Py.lit "//" ++ x)) with (Py.lit "http").
  change (forallb (Py.char_in Ref.scheme_chars) (Py.lit "http")) with true.
  cbv iota beta.
  repeat (match goal with |- context [match ?x with _ => _ end] => destruct x end);
    intros [= <-]; reflexivity.
Qed.

(** The two-character text ["ab"] on the stand-in libraries. *)
Lemma try_parse_url_never_raises_witness :
  (∃ r w', @try_parse_url Ref.offline (Py.lit "ab") Ref.empty_world = (Ok r, w'))
  ∧ (length (Py.strip (Py.lit "ab")) < 4 →
     @try_parse_url Ref.offline (Py.lit "ab") Ref.empty_world
     = (Ok None,
        {| events := events Ref.empty_world
                     ++ [EvLog "info" (PStr (Py.lit "URL too short: " ++ Py.lit "ab"))];
           files := files Ref.empty_world |})).
Proof.
  apply (@try_parse_url_never_raises Ref.offline).
  intros u e Hu. apply ref_urlparse_raises in Hu as ->. reflexivity.
Defined.

(** ["example.com"] comes back as the parse of ["http://example.com"]. *)
Lemma try_parse_url_scheme_witness :
  @try_parse_url Ref.offline (Py.lit "example.com") Ref.empty_world
  = (Ok (Some {| scheme := Py.lit "http"; netloc := Py.lit "example.com";
                 path := []; params := []; query := []; fragment := [] |}),
     Ref.empty_world).
Proof.
  pose proof (@try_parse_url_scheme Ref.offline (Py.lit "example.com")
                Ref.empty_world
                {| scheme := []; netloc := []; path := Py.lit "example.com";
                   params := []; query := []; fragment := [] |}
                (ref_urlparse_reads_http Ref.offline eq_refl)
                ltac:(vm_compute; lia) ltac:(vm_compute; reflexivity)) as [_ Hguess].
  specialize (Hguess eq_refl). vm_compute in Hguess. destruct Hguess as [Hr _].
  vm_compute. exact Hr.
Defined.

(** C8 as the specification words it fails on ["abc["]: the text parses
    without a scheme, but behind [http://] its bracket makes [urlparse]
    raise [ValueError], and normalisation returns [None]. *)
Lemma try_parse_url_guess_can_fail :
  ¬ normalisation_as_specified Ref.offline (Py.lit "abc[").
Proof.
  intros Hspec.
  destruct (Hspec Ref.empty_world
              {| scheme := []; netloc := []; path := Py.lit "abc[";
                 params := []; query := []; fragment := [] |}
              ltac:(vm_compute; reflexivity)) as [Hguess _].
  destruct (Hguess eq_refl) as (p' & Hret & _).
  vm_compute in Hret. discriminate Hret.
Qed.

(** ** Filename resolution *)

Lemma forallb_ends_with (p : N → bool) (w : Py.str) :
  forallb p w = true → w ≠ [] → ends_with p w.
Proof.
  intros Hw Hne. destruct (exists_last Hne) as (w' & c & ->).
  exists w', c. split; [done|].
  rewrite forallb_app in Hw. apply andb_true_iff in Hw as [_ Hw].
  simpl in Hw. by rewrite andb_true_r in Hw.
Qed.

(** What line 211 computes is a stem of the title... *)
Lemma strip_drive_suffix_stem (t : Py.str) :
  drive_title_stem (t ++ Py.lit "Google Drive")
    (strip_drive_suffix (t ++ Py.lit "Google Drive")).
Proof.
  unfold strip_drive_suffix, Py.rstrip, Py.rstrip_chars.
  rewrite PyFacts.slice_until_neg_app.
  destruct (PyFacts.rstrip_by_split Py.isspace t) as (ws2 & Ht & Hws2 & Ha).
  set (a := Py.rstrip_by Py.isspace t) in *.
  destruct (PyFacts.rstrip_by_split (Py.char_in (Py.lit "-:")) a)
    as (seps & Hab & Hseps & Hb).
  set (b := Py.rstrip_by (Py.char_in (Py.lit "-:")) a) in *.
  destruct (PyFacts.rstrip_by_split Py.isspace b) as (ws1 & Hbr & Hws1 & Hr).
  set (r := Py.rstrip_by Py.isspace b) in *.
  exists ws1, seps, ws2. split_and!; try done.
  - rewrite Ht at 1. rewrite Hab at 1. rewrite Hbr at 1.
    by rewrite <- !(assoc_L (++)).
  - intros ->. rewrite app_nil_r in Hab.
    destruct ws1 as [|c ws1]; [done|]. exfalso. apply Ha.
    rewrite Hab, Hbr. apply PyFacts.ends_with_app; [done|].
    by apply forallb_ends_with.
  - intros ->. rewrite app_nil_r in Hbr. by rewrite <- Hbr.
Qed.

(** ... and the only one. *)
Lemma drive_title_stem_inv (title stem : Py.str) :
  drive_title_stem title stem → stem = strip_drive_suffix title.
Proof.
  intros (ws1 & seps & ws2 & -> & Hws1 & Hseps & Hws2 & Hstem & Hnosep & Hnows).
  unfold strip_drive_suffix, Py.rstrip, Py.rstrip_chars.
  rewrite !(assoc_L (++)), PyFacts.slice_until_neg_app.
  assert (Py.rstrip_by Py.isspace (((stem ++ ws1) ++ seps) ++ ws2)
          = (stem ++ ws1) ++ seps) as ->.
  { apply (PyFacts.rstrip_by_unique _ _ _ ws2); [done|done|].
    destruct seps as [|c seps].
    - rewrite (Hnosep eq_refl), !app_nil_r. done.
    - rewrite PyFacts.ends_with_app by done.
      intros (c' & Hsep & Hsp)%(PyFacts.ends_with_forallb _ _ _ Hseps).
      by apply (PyFacts.separator_not_space c'). }
  assert (Py.rstrip_by (Py.char_in (Py.lit "-:")) ((stem ++ ws1) ++ seps)
          = stem ++ ws1) as ->.
  { apply (PyFacts.rstrip_by_unique _ _ _ seps); [done|done|].
    destruct ws1 as [|c ws1]; [rewrite app_nil_r; by apply Hnows|].
    rewrite PyFacts.ends_with_app by done.
    intros (c' & Hsp & Hsep)%(PyFacts.ends_with_forallb _ _ _ Hws1).
    by apply (PyFacts.separator_not_space c'). }
  symmetry. by apply (PyFacts.rstrip_by_unique _ _ _ ws1).
Qed.

Section resolver.
Context `{Libs}.
Variable g : gmap string pyval.

(** Without a title the resolver raises: [None] has no [endswith]. *)
Lemma get_url_filename_no_title (url driveid : option Py.str) (w w' : world) :
  Py.startswith (url_or_drive_page url driveid)
    (Py.lit "https://drive.google.com") = true →
  get_url_title g (url_or_drive_page url driveid) w = (Ok None, w') →
  get_url_filename g url driveid w
  = (Raise (AttributeError "'NoneType' object has no attribute 'endswith'"), w').
Proof.
  intros Hdrive Htitle. unfold get_url_filename.
  cbv zeta. rewrite Hdrive. run. by rewrite Htitle.
Qed.

(** An exception of the title lookup goes through the resolver. *)
Lemma get_url_filename_title_raises (url driveid : option Py.str)
    (w w' : world) (e : exn) :
  Py.startswith (url_or_drive_page url driveid)
    (Py.lit "https://drive.google.com") = true →
  get_url_title g (url_or_drive_page url driveid) w = (Raise e, w') →
  get_url_filename g url driveid w = (Raise e, w').
Proof.
  intros Hdrive Htitle. unfold get_url_filename.
  cbv zeta. rewrite Hdrive. run. by rewrite Htitle.
Qed.

(** C5: when the title retrieved for the Drive page ends in
    "Google Drive", the resolver returns the title without that suffix,
    without the separators [-] and [:] before it and without the
    whitespace around them; "My File - Google Drive" gives "My File". *)
Theorem get_url_filename_strips_drive_suffix (url driveid : option Py.str)
    (w w' : world) (title : Py.str) :
  Py.startswith (url_or_drive_page url driveid)
    (Py.lit "https://drive.google.com") = true →
  get_url_title g (url_or_drive_page url driveid) w = (Ok (Some title), w') →
  Py.endswith title (Py.lit "Google Drive") = true →
  ∃ stem,
    get_url_filename g url driveid w = (Ok (Some stem), w')
    ∧ drive_title_stem title stem
    ∧ (∀ stem', drive_title_stem title stem' → stem' = stem)
    ∧ (title = Py.lit "My File - Google Drive" → stem = Py.lit "My File").
Proof.
  intros Hdrive Htitle Hsuffix.
  exists (strip_drive_suffix title). split_and!.
  - unfold get_url_filename. cbv zeta. rewrite Hdrive. run.
    by rewrite Htitle, Hsuffix.
  - apply PyFacts.endswith_inv in Hsuffix as [t ->].
    apply strip_drive_suffix_stem.
  - apply drive_title_stem_inv.
  - intros ->. by vm_compute.
Qed.

End resolver.

(** One run of separators goes, with the whitespace on both sides of it;
    a separator further left stays. *)
Example strip_drive_suffix_one_run :
  strip_drive_suffix (Py.lit "My File -: Google Drive") = Py.lit "My File"
  ∧ strip_drive_suffix (Py.lit "A - - Google Drive") = Py.lit "A -"
  ∧ strip_drive_suffix (Py.lit "  My File - Google Drive") = Py.lit "  My File".
Proof. split_and!; vm_compute; reflexivity. Qed.

(** The drive id of line 36, with the title its page has. *)
Lemma get_url_filename_strips_drive_suffix_witness :
  fst (@get_url_filename
         (Ref.libs
            (Ref.constant_net
               (Ref.response_of []
                  [Py.lit "VGG_VOC0712_SSD_512x512_ft_iter_120000.h5 - Google Drive"]))
            Ref.title_is_content)
         web_globals None (Some (Py.lit "14mELuzm0OvXnwjb0mzAiG-Ake9_NP_LQ"))
         Ref.empty_world)
  = Ok (Some (Py.lit "VGG_VOC0712_SSD_512x512_ft_iter_120000.h5")).
Proof.
  set (L := Ref.libs _ _).
  destruct (@get_url_filename_strips_drive_suffix L web_globals None
              (Some (Py.lit "14mELuzm0OvXnwjb0mzAiG-Ake9_NP_LQ"))
              Ref.empty_world
              (snd (@get_url_title L web_globals
                      (url_or_drive_page None
                         (Some (Py.lit "14mELuzm0OvXnwjb0mzAiG-Ake9_NP_LQ")))
                      Ref.empty_world))
              (Py.lit "VGG_VOC0712_SSD_512x512_ft_iter_120000.h5 - Google Drive"))
    as (stem & Hrun & _).
  - vm_compute. reflexivity.
  - vm_compute. reflexivity.
  - vm_compute. reflexivity.
  - rewrite Hrun. vm_compute in Hrun. injection Hrun as Hstem.
    vm_compute. rewrite <- Hstem. reflexivity.
Defined.

(** C6 fails on the code: a URL that [urlparse] rejects makes the title
    lookup answer [None], a page without a [title] element does the same,
    and [get_url_filename] then raises [AttributeError]; when the network
    is down the title lookup itself raises [NameError], on the unbound
    [InvalidURL] of its second [except] clause. *)
Theorem get_url_filename_raises_without_title :
  fst (@get_url_filename Ref.offline web_globals
         (Some (Py.lit "https://drive.google.com[")) None Ref.empty_world)
  = Raise (AttributeError "'NoneType' object has no attribute 'endswith'")
  ∧ fst (@get_url_filename
           (Ref.libs (Ref.constant_net (Ref.response_of [] [])) (λ _, Ok None))
           web_globals None (Some (Py.lit "14mELuzm0OvXnwjb0mzAiG-Ake9_NP_LQ"))
           Ref.empty_world)
    = Raise (AttributeError "'NoneType' object has no attribute 'endswith'")
  ∧ fst (@get_url_filename
           (Ref.libs (λ _, Raise (RequestsConnectionError "network unreachable"))
              Ref.title_is_content)
           web_globals None (Some (Py.lit "14mELuzm0OvXnwjb0mzAiG-Ake9_NP_LQ"))
           Ref.empty_world)
    = Raise (NameError "InvalidURL").
Proof. split_and!; vm_compute; reflexivity. Qed.

(** ** The chunked writer *)

Lemma load_name_unbound (g : gmap string pyval) (name : string) :
  g !! name = None → builtins !! name = None →
  load_name g name = raise (NameError name).
Proof. intros Hg Hb. unfold load_name. by rewrite Hg, Hb. Qed.

Lemma load_name_bound (g : gmap string pyval) (name : string) (v : pyval) :
  g !! name = Some v → load_name g name = ret v.
Proof. intros Hg. unfold load_name. by rewrite Hg. Qed.

(** Nothing in the module, and no builtin, is called [CHUNK_SIZE]. *)
Lemma CHUNK_SIZE_unbound :
  load_name web_globals "CHUNK_SIZE" = raise (NameError "CHUNK_SIZE").
Proof. apply load_name_unbound; vm_compute; reflexivity. Qed.

Section writer.
Context `{Libs}.

(** The loop of lines 232-234 on a file that is open: the chunks that
    are not empty are written, in order, and the file holds what it held
    followed by all of them. *)
Lemma write_loop (p : Py.str) (chunks : list Py.bytes) (w : world)
    (held : Py.bytes) :
  files w !! p = Some held →
  for_each chunks
    (λ chunk : Py.bytes,
       if bool_decide (chunk = []) then ret tt else file_write p chunk) w
  = (Ok tt,
     {| events := events w ++ (EvWrite p <$> filter (λ c, c ≠ []) chunks);
        files := <[p := held ++ concat chunks]> (files w) |}).
Proof.
  revert w held; induction chunks as [|c chunks IH]; intros w held Hheld.
  - simpl. rewrite !app_nil_r, insert_id by done. by destruct w.
  - cbn [for_each]. run. case_bool_decide as Hc.
    + subst c. rewrite IH with (held := held) by done.
      by rewrite filter_cons_False by naive_solver.
    + unfold file_write at 1. rewrite Hheld. cbn [default].
      rewrite IH with (held := held ++ c); cbn [events files].
      * rewrite filter_cons_True by done. cbn [fmap list_fmap concat].
        by rewrite insert_insert_eq, <- !(assoc_L (++)).
      * by rewrite lookup_insert_eq.
Qed.

Variables (response : response) (filename destination : Py.str).
Variable (chunksize : option Z) (w : world).

(** With [CHUNK_SIZE] bound to an integer the writer would complete:
    it reads the body in blocks of that size and the file ends up
    holding the chunks, one after the other. *)
Lemma save_response_content_bound (g : gmap string pyval) (n : Z) :
  let p := destination_path filename destination in
  let chunks := iter_content response (Some n) in
  g !! "CHUNK_SIZE" = Some (PInt n) →
  openable p = true →
  save_response_content g response filename destination chunksize w
  = (Ok p,
     {| events := events w
                  ++ [EvOpen p; EvIterContent (Some n)]
                  ++ (EvWrite p <$> filter (λ c, c ≠ []) chunks)
                  ++ [EvClose p];
        files := <[p := concat chunks]> (files w) |}).
Proof.
  intros p chunks Hg Hopen. unfold save_response_content.
  cbv zeta. fold p. unfold open_wb at 1. run. rewrite Hopen.
  rewrite (load_name_bound _ _ _ Hg). run.
  unfold response_iter_content. run. cbn [events files]. fold chunks.
  rewrite write_loop with (held := []) by apply lookup_insert_eq.
  cbn [events files].
  by rewrite insert_insert_eq, <- !(assoc_L (++)).
Qed.

(** C9: the chunk loop reads [CHUNK_SIZE], not the [chunksize] argument.
    The result of a call does not depend on [chunksize]; with the
    globals of the module, every call that gets to the loop (the file
    could be opened) raises [NameError] before [iter_content] is called,
    leaving an empty file; where [CHUNK_SIZE] is bound to an integer,
    that integer is the block size asked for. *)
Theorem save_response_content_ignores_chunksize :
  let p := destination_path filename destination in
  (∀ g chunksize',
     save_response_content g response filename destination chunksize w
     = save_response_content g response filename destination chunksize' w)
  ∧ (openable p = true →
     save_response_content web_globals response filename destination chunksize w
     = (Raise (NameError "CHUNK_SIZE"),
        {| events := events w ++ [EvOpen p; EvClose p];
           files := <[p := []]> (files w) |}))
  ∧ (∀ g n, g !! "CHUNK_SIZE" = Some (PInt n) → openable p = true →
     ∃ rest,
       events (snd (save_response_content g response filename destination
                      chunksize w))
       = events w ++ EvOpen p :: EvIterContent (Some n) :: rest).
Proof.
  intros p. split_and!.
  - reflexivity.
  - intros Hopen. unfold save_response_content.
    cbv zeta. fold p. unfold open_wb at 1. run. rewrite Hopen.
    rewrite CHUNK_SIZE_unbound. run. cbn [events files].
    by rewrite <- !(assoc_L (++)).
  - intros g n Hg Hopen.
    rewrite (save_response_content_bound g n Hg Hopen). cbn [snd events].
    eauto.
Qed.

(** Once the file is open, a call ends in an exception or returns the
    path it wrote to. *)
Lemma save_response_content_cases (g : gmap string pyval) :
  let p := destination_path filename destination in
  openable p = true →
  ∃ o rest fs,
    save_response_content g response filename destination chunksize w
    = (o, {| events := events w ++ EvOpen p :: rest; files := fs |})
    ∧ (o = Ok p ∨ ∃ e, o = Raise e).
Proof.
  intros p Hopen.
  destruct (g !! "CHUNK_SIZE") as [v|] eqn:Hg.
  - destruct v as [|n|s|c|r|d];
      try (rewrite (save_response_content_bound g n Hg Hopen);
           do 3 eexists; split; [reflexivity | by left]);
      unfold save_response_content; cbv zeta; fold p;
      unfold open_wb at 1; run; rewrite Hopen;
      rewrite (load_name_bound _ _ _ Hg); run;
      unfold response_iter_content; run; cbn [events files].
    2-5: by (do 3 eexists; split;
             [by rewrite <- !(assoc_L (++)) | right; eauto]).
    rewrite write_loop with (held := []) by apply lookup_insert_eq.
    cbn [events files]. do 3 eexists.
    split; [by rewrite <- !(assoc_L (++)) | by left].
  - unfold save_response_content; cbv zeta; fold p.
    unfold open_wb at 1; run; rewrite Hopen.
    rewrite load_name_unbound by (done || (vm_compute; reflexivity)).
    run. cbn [events files]. do 3 eexists.
    split; [by rewrite <- !(assoc_L (++)) | right; eauto].
Qed.

(** C4: the writer writes to [filename] itself when it holds a path
    separator and to the join of [destination] and [filename] otherwise,
    with the user-relative shorthand expanded either way; a call that
    completes returns this path, and a call completes when the file can
    be opened and [CHUNK_SIZE] is bound to an integer. *)
Theorem save_response_content_path (g : gmap string pyval) :
  let p := destination_path filename destination in
  (Py.contains os_path_sep filename = true → p = expand_filepath filename)
  ∧ (Py.contains os_path_sep filename = false →
     p = expand_filepath (os_path_join destination filename))
  ∧ (openable p = false →
     ∃ e, save_response_content g response filename destination chunksize w
          = (Raise e, w))
  ∧ (openable p = true →
     ∃ rest,
       events (snd (save_response_content g response filename destination
                      chunksize w))
       = events w ++ EvOpen p :: rest)
  ∧ (∀ v w',
       save_response_content g response filename destination chunksize w
       = (Ok v, w') → v = p)
  ∧ (∀ n, g !! "CHUNK_SIZE" = Some (PInt n) → openable p = true →
     fst (save_response_content g response filename destination chunksize w)
     = Ok p).
Proof.
  intros p. split_and!.
  - intros Hsep. unfold p, destination_path. by rewrite Hsep.
  - intros Hsep. unfold p, destination_path. by rewrite Hsep.
  - intros Hopen. unfold save_response_content.
    cbv zeta. fold p. unfold open_wb at 1. run. rewrite Hopen. eauto.
  - intros Hopen.
    destruct (save_response_content_cases g Hopen) as (o & rest & fs & -> & _).
    eauto.
  - intros v w' Hrun. destruct (openable p) eqn:Hopen.
    + destruct (save_response_content_cases g Hopen)
        as (o & rest & fs & Hrun' & [->|[e ->]]);
        fold p in Hrun'; congruence.
    + revert Hrun. unfold save_response_content.
      cbv zeta. fold p. unfold open_wb at 1. run. by rewrite Hopen.
  - intros n Hg Hopen. by rewrite (save_response_content_bound g n Hg Hopen).
Qed.

End writer.

(** The body [b"abc", b"", b"def"] with chunk size 3, in the current
    directory. *)
Lemma save_response_content_ignores_chunksize_witness :
  @save_response_content Ref.offline web_globals
    (Ref.response_of [] [Py.lit "abc"; []; Py.lit "def"])
    (Py.lit "out.bin") (Py.lit ".") (Some 3%Z) Ref.empty_world
  = (Raise (NameError "CHUNK_SIZE"),
     {| events := [EvOpen (Py.lit "./out.bin"); EvClose (Py.lit "./out.bin")];
        files := {[ Py.lit "./out.bin" := [] ]} |}).
Proof.
  destruct (@save_response_content_ignores_chunksize Ref.offline
              (Ref.response_of [] [Py.lit "abc"; []; Py.lit "def"])
              (Py.lit "out.bin") (Py.lit ".") (Some 3%Z) Ref.empty_world)
    as (_ & Hraise & _).
  rewrite Hraise by (vm_compute; reflexivity).
  vm_compute. reflexivity.
Defined.

(** The same body written below the home directory, in a namespace that
    binds [CHUNK_SIZE]. *)
Lemma save_response_content_path_witness :
  fst (@save_response_content Ref.offline
         (<["CHUNK_SIZE" := PInt 3]> web_globals)
         (Ref.response_of [] [Py.lit "abc"; []; Py.lit "def"])
         (Py.lit "out.bin") (Py.lit "~") None Ref.empty_world)
  = Ok (Py.lit "/home/user/out.bin").
Proof.
  destruct (@save_response_content_path Ref.offline
              (Ref.response_of [] [Py.lit "abc"; []; Py.lit "def"])
              (Py.lit "out.bin") (Py.lit "~") None Ref.empty_world
              (<["CHUNK_SIZE" := PInt 3]> web_globals))
    as (_ & _ & _ & _ & _ & Hdone).
  rewrite (Hdone 3%Z) by (vm_compute; reflexivity).
  vm_compute. reflexivity.
Defined.

(** C3 fails on the code: on the body [b"abc", b"", b"def"] with chunk
    size 3 the writer opens [./out.bin], raises [NameError] on
    [CHUNK_SIZE] before it reads a single chunk, and leaves the file
    empty, where the specification has it hold [abcdef]. *)
Theorem save_response_content_writes_nothing :
  let result := @save_response_content Ref.offline web_globals
               (Ref.response_of [] [Py.lit "abc"; []; Py.lit "def"])
               (Py.lit "out.bin") (Py.lit ".") (Some 3%Z) Ref.empty_world in
  fst result = Raise (NameError "CHUNK_SIZE")
  ∧ events (snd result)
    = [EvOpen (Py.lit "./out.bin"); EvClose (Py.lit "./out.bin")]
  ∧ files (snd result) !! Py.lit "./out.bin" = Some []
  ∧ files (snd result) !! Py.lit "./out.bin" ≠ Some (Py.lit "abcdef").
Proof. split_and!; vm_compute; (reflexivity || discriminate). Qed.

(** ** What goes through the session *)

Lemma session_gets_app (l1 l2 : list event) :
  session_gets (l1 ++ l2) = session_gets l1 ++ session_gets l2.
Proof. apply omap_app. Qed.

Lemma sent_by_unique {A} (m : M A) (w : world) (r1 r2 : list request) :
  sent_by m w r1 → sent_by m w r2 → r1 = r2.
Proof.
  intros (n1 & E1 & <-) (n2 & E2 & <-). rewrite E1 in E2.
  by apply app_inv_head in E2 as ->.
Qed.

Lemma sent_by_bind {A B} (m : M A) (f : A → M B) (w : world)
    (reqs : list request) :
  sent_by m w reqs → (∀ a, quiet (f a)) → sent_by (bind m f) w reqs.
Proof.
  intros (new & Hm & Hreqs) Hf. unfold sent_by, bind.
  destruct (m w) as [[a|e] w1]; cbn [snd] in *.
  - destruct (Hf a w1) as (new' & Hfa & Hquiet).
    exists (new ++ new'). rewrite Hfa, Hm, session_gets_app, Hreqs, Hquiet.
    by rewrite (assoc_L (++)), app_nil_r.
  - by exists new.
Qed.

Lemma quiet_ret {A} (a : A) : quiet (ret a).
Proof. intros w. exists []. by rewrite app_nil_r. Qed.

Lemma quiet_raise {A} (e : exn) : quiet (@raise A e).
Proof. intros w. exists []. by rewrite app_nil_r. Qed.

Lemma quiet_call {A} (o : outcome A) : quiet (call o).
Proof. intros w. exists []. by rewrite app_nil_r. Qed.

Lemma quiet_emit (ev : event) :
  session_gets [ev] = [] → quiet (emit ev).
Proof. intros Hev w. by exists [ev]. Qed.

Lemma quiet_log (level : string) (msg : pyval) : quiet (log level msg).
Proof. by apply quiet_emit. Qed.

Lemma quiet_bind {A B} (m : M A) (f : A → M B) :
  quiet m → (∀ a, quiet (f a)) → quiet (bind m f).
Proof. intros Hm Hf w. by apply sent_by_bind. Qed.

Lemma quiet_try_except {A} (body : M A) (handler : exn → M A) :
  quiet body → (∀ e, quiet (handler e)) → quiet (try_except body handler).
Proof.
  intros Hb Hh w. destruct (Hb w) as (new & Hnew & Hq).
  unfold sent_by, try_except. destruct (body w) as [[a|e] w1]; cbn [snd] in *.
  - by exists new.
  - destruct (Hh e w1) as (new' & Hnew' & Hq').
    exists (new ++ new'). rewrite Hnew', Hnew, session_gets_app, Hq, Hq'.
    by rewrite (assoc_L (++)).
Qed.

Lemma quiet_try_finally {A} (body : M A) (cleanup : M unit) :
  quiet body → quiet cleanup → quiet (try_finally body cleanup).
Proof.
  intros Hb Hc w. destruct (Hb w) as (new & Hnew & Hq).
  unfold sent_by, try_finally. destruct (body w) as [[a|e] w1]; cbn [snd] in *.
  - destruct (quiet_bind cleanup (λ _, ret a) Hc (λ _, quiet_ret a) w1)
      as (new' & Hnew' & Hq').
    exists (new ++ new'). rewrite Hnew', Hnew, session_gets_app, Hq, Hq'.
    by rewrite (assoc_L (++)).
  - destruct (quiet_bind cleanup (λ _, @raise A e) Hc (λ _, quiet_raise e) w1)
      as (new' & Hnew' & Hq').
    exists (new ++ new'). rewrite Hnew', Hnew, session_gets_app, Hq, Hq'.
    by rewrite (assoc_L (++)).
Qed.

Lemma quiet_for_each {A} (l : list A) (body : A → M unit) :
  (∀ a, quiet (body a)) → quiet (for_each l body).
Proof.
  intros Hb. induction l as [|a l IH]; cbn [for_each].
  - apply quiet_ret.
  - by apply quiet_bind.
Qed.

Lemma quiet_load_name (g : gmap string pyval) (name : string) :
  quiet (load_name g name).
Proof.
  unfold load_name. destruct (g !! name); [apply quiet_ret|].
  destruct (builtins !! name); [apply quiet_ret | apply quiet_raise].
Qed.

Lemma quiet_exc_matches (e : exn) (v : pyval) : quiet (exc_matches e v).
Proof. destruct v; first [apply quiet_ret | apply quiet_raise]. Qed.

Lemma quiet_exc_matches_any (e : exn) (vs : list pyval) :
  quiet (exc_matches_any e vs).
Proof.
  induction vs as [|v vs IH]; cbn [exc_matches_any]; [apply quiet_ret|].
  apply quiet_bind; [apply quiet_exc_matches|]. intros b.
  apply quiet_bind; [done|]. intros b'. apply quiet_ret.
Qed.

Lemma quiet_py_call (f : pyval) : quiet (py_call f).
Proof. destruct f; first [apply quiet_ret | apply quiet_raise]. Qed.

Lemma quiet_as_str (v : pyval) : quiet (as_str v).
Proof. destruct v; first [apply quiet_ret | apply quiet_raise]. Qed.

Create HintDb quiet.
#[local] Hint Resolve quiet_ret quiet_raise quiet_call quiet_log quiet_load_name
  quiet_exc_matches quiet_exc_matches_any quiet_py_call quiet_as_str : quiet.

(** Takes a computation apart along its binds, handlers and branches. *)
Ltac quiet_step :=
  match goal with
  | |- quiet (bind _ _) => apply quiet_bind; [|intros ?]
  | |- quiet (try_except _ _) => apply quiet_try_except; [|intros ?]
  | |- quiet (try_finally _ _) => apply quiet_try_finally
  | |- quiet (for_each _ _) => apply quiet_for_each; intros ?
  | |- quiet (emit _) => by apply quiet_emit
  | |- quiet (if ?b then _ else _) => destruct b
  | |- quiet (match ?x with _ => _ end) => destruct x
  | |- quiet _ => solve [auto with quiet]
  end.

Section quiet_functions.
Context `{Libs}.
Variable g : gmap string pyval.

Lemma quiet_requests_get (req : request) : quiet (requests_get req).
Proof. unfold requests_get. repeat quiet_step. Qed.

Lemma quiet_try_parse_url (url : Py.str) : quiet (try_parse_url url).
Proof. unfold try_parse_url. repeat quiet_step. Qed.

Lemma quiet_get_url_title (url : Py.str) : quiet (get_url_title g url).
Proof.
  unfold get_url_title.
  apply quiet_bind; [apply quiet_try_parse_url|]. intros [p|]; [|quiet_step].
  apply quiet_try_except.
  - apply quiet_bind; [apply quiet_requests_get|]. intros r.
    repeat quiet_step.
  - intros e. repeat quiet_step.
Qed.

Lemma quiet_get_url_filename (url driveid : option Py.str) :
  quiet (get_url_filename g url driveid).
Proof.
  unfold get_url_filename. cbv zeta. quiet_step; [|repeat quiet_step].
  apply quiet_bind; [apply quiet_get_url_title|]. intros [t|]; quiet_step.
Qed.

Lemma quiet_open_wb (p : Py.str) : quiet (open_wb p).
Proof.
  intros w. unfold sent_by, open_wb. destruct (openable p); cbn [snd events].
  - by exists [EvOpen p].
  - exists []. by rewrite app_nil_r.
Qed.

Lemma quiet_file_write (p : Py.str) (data : Py.bytes) :
  quiet (file_write p data).
Proof. intros w. by exists [EvWrite p data]. Qed.

Lemma quiet_response_iter_content (r : response) (v : pyval) :
  quiet (response_iter_content r v).
Proof. unfold response_iter_content. repeat quiet_step. Qed.

Lemma quiet_save_response_content (r : response)
    (filename destination : Py.str) (chunksize : option Z) :
  quiet (save_response_content g r filename destination chunksize).
Proof.
  unfold save_response_content. cbv zeta.
  apply quiet_bind; [apply quiet_open_wb|]. intros _.
  apply quiet_bind; [|intros _; quiet_step].
  apply quiet_try_finally; [|quiet_step].
  apply quiet_bind; [quiet_step|]. intros v.
  apply quiet_bind; [apply quiet_response_iter_content|]. intros chunks.
  apply quiet_for_each. intros c.
  quiet_step; [quiet_step | apply quiet_file_write].
Qed.

End quiet_functions.

(** ** The confirmation-token handshake *)

(** The token is the value of the first warning cookie. *)
Lemma token_first_warning_cookie (r : response) (v : Py.str) :
  get_response_confirmation_token r = Some v ↔ first_warning_cookie r v.
Proof.
  unfold get_response_confirmation_token, first_warning_cookie.
  induction (cookies r) as [|[k u] items IH].
  - split; [done|]. intros ([|??] & ? & ? & ? & _); done.
  - destruct (Py.startswith k (Py.lit "download_warning")) eqn:Ek.
    + split.
      * intros [= ->]. by exists [], k, items.
      * intros ([|[k' u'] pre] & k2 & post & Heq & Hk2 & Hpre).
        -- by injection Heq as -> -> _.
        -- injection Heq as -> -> _. apply Forall_cons_1 in Hpre as [Hk' _].
           cbn [fst] in Hk'. congruence.
    + rewrite IH. split.
      * intros (pre & k2 & post & -> & Hk2 & Hpre).
        exists ((k, u) :: pre), k2, post. split_and!; [done|done|].
        by apply Forall_cons.
      * intros ([|[k' u'] pre] & k2 & post & Heq & Hk2 & Hpre).
        -- injection Heq as -> -> _. congruence.
        -- injection Heq as -> -> ->. apply Forall_cons_1 in Hpre as [_ Hpre].
           by exists pre, k2, post.
Qed.

(** There is no token exactly when there is no warning cookie. *)
Lemma no_token_no_warning_cookie (r : response) :
  get_response_confirmation_token r = None ↔ ¬ has_warning_cookie r.
Proof.
  unfold get_response_confirmation_token, has_warning_cookie.
  induction (cookies r) as [|[k u] items IH].
  - split; [|done]. intros _ (k & v & Hin & _). by apply elem_of_nil in Hin.
  - destruct (Py.startswith k (Py.lit "download_warning")) eqn:Ek.
    + split; [done|]. intros []. exists k, u. split; [left|done].
    + rewrite IH. split.
      * intros Hno (k' & v' & Hin & Hk'). apply elem_of_cons in Hin as [[= -> ->]|Hin].
        -- congruence.
        -- apply Hno. by exists k', v'.
      * intros Hno (k' & v' & Hin & Hk'). apply Hno.
        exists k', v'. split; [by right|done].
Qed.

Section handshake.
Context `{Libs}.

(** What lines 257-262 do on an initial response. *)
Lemma confirmation_handshake_run (driveid : Py.str) (w : world) (r0 : response) :
  http_get (initial_request driveid) = Ok r0 →
  confirmation_handshake driveid w
  = match get_response_confirmation_token r0 with
    | Some (c :: t) =>
        (http_get (confirmed_request driveid (c :: t)),
         then_sent w [initial_request driveid;
                      confirmed_request driveid (c :: t)])
    | _ => (Ok r0, then_sent w [initial_request driveid])
    end.
Proof.
  intros Hget. unfold confirmation_handshake, session_get. run.
  rewrite Hget. cbn [events files].
  destruct (get_response_confirmation_token r0) as [[|c t]|]; cbn [Py.truthy];
    unfold then_sent; cbn [fmap list_fmap default events files];
    by rewrite <- ?(assoc_L (++)).
Qed.

Lemma sent_by_then_sent {A} (m : M A) (w : world) (o : outcome A)
    (reqs : list request) :
  m w = (o, then_sent w reqs) → sent_by m w reqs.
Proof.
  intros Hm. exists (EvSessionGet <$> reqs). rewrite Hm. split.
  - reflexivity.
  - unfold session_gets. clear Hm. induction reqs as [|r reqs IH].
    + reflexivity.
    + cbn [fmap list_fmap omap list_omap]. f_equal. apply IH.
Qed.

(** The whole download sends through the session what its handshake
    sends. *)
Lemma download_sends_handshake (g : gmap string pyval)
    (driveid : Py.str) (filename : option Py.str) (destination : Py.str)
    (w : world) (reqs : list request) :
  sent_by (confirmation_handshake (extract_driveid driveid)) w reqs →
  sent_by (download_file_from_google_drive g driveid filename destination)
    w reqs.
Proof.
  intros Hsend.
  unfold download_file_from_google_drive, download_steps_before_save.
  cbv zeta. apply sent_by_bind.
  - apply sent_by_bind; [done|]. intros response.
    apply quiet_bind; [|intros ?; apply quiet_ret].
    destruct (Py.truthy filename);
      [apply quiet_ret | apply quiet_get_url_filename].
  - intros [response fn].
    apply quiet_bind; [apply quiet_load_name|]. intros v.
    apply quiet_bind; [apply quiet_as_str|]. intros s.
    apply quiet_bind; [apply quiet_save_response_content|]. intros p.
    apply quiet_ret.
Qed.

(** C1, as the code has it: the session sends a second request exactly
    when the first cookie whose key starts with [download_warning] has a
    value that is not empty; that value is the token, and the second
    request carries [confirm=<token>] next to the same drive id;
    without such a cookie, or with an empty value in it, the initial
    response is used and the session sends nothing more. *)
Theorem confirmation_handshake_spec (g : gmap string pyval)
    (driveid : Py.str) (filename : option Py.str) (destination : Py.str)
    (w : world) (r0 : response) :
  let d := extract_driveid driveid in
  let download := download_file_from_google_drive g driveid filename destination in
  http_get (initial_request d) = Ok r0 →
  (∀ token, first_warning_cookie r0 token → token ≠ [] →
     confirmation_handshake d w
     = (http_get (confirmed_request d token),
        then_sent w [initial_request d; confirmed_request d token])
     ∧ req_params (confirmed_request d token) !! Py.lit "confirm" = Some token
     ∧ req_params (confirmed_request d token) !! Py.lit "id" = Some d
     ∧ sent_by download w [initial_request d; confirmed_request d token])
  ∧ (¬ has_warning_cookie r0 ∨ first_warning_cookie r0 [] →
     confirmation_handshake d w = (Ok r0, then_sent w [initial_request d])
     ∧ sent_by download w [initial_request d])
  ∧ (∀ second, sent_by download w [initial_request d; second] →
     ∃ token, first_warning_cookie r0 token ∧ token ≠ []
              ∧ second = confirmed_request d token).
Proof.
  intros d download Hget.
  pose proof (confirmation_handshake_run d w r0 Hget) as Hrun.
  split_and!.
  - intros token Htoken Hne.
    apply token_first_warning_cookie in Htoken. rewrite Htoken in Hrun.
    destruct token as [|c t]; [done|].
    split_and!; [done | | |].
    + apply lookup_insert_eq.
    + unfold confirmed_request; cbn [req_params].
      rewrite lookup_insert_ne by (by vm_compute).
      apply lookup_singleton_eq.
    + eapply download_sends_handshake, sent_by_then_sent, Hrun.
  - intros Hnone.
    assert (confirmation_handshake d w = (Ok r0, then_sent w [initial_request d]))
      as Hrun'.
    { destruct Hnone as [Hnone|Hempty].
      - apply no_token_no_warning_cookie in Hnone. by rewrite Hnone in Hrun.
      - apply token_first_warning_cookie in Hempty. by rewrite Hempty in Hrun. }
    split; [done|].
    eapply download_sends_handshake, sent_by_then_sent, Hrun'.
  - intros second Hsent.
    destruct (get_response_confirmation_token r0) as [[|c t]|] eqn:Htoken.
    + pose proof (download_sends_handshake g driveid filename destination w _
                    (sent_by_then_sent _ _ _ _ Hrun)) as Hone.
      by pose proof (sent_by_unique _ _ _ _ Hsent Hone).
    + pose proof (download_sends_handshake g driveid filename destination w _
                    (sent_by_then_sent _ _ _ _ Hrun)) as Htwo.
      pose proof (sent_by_unique _ _ _ _ Hsent Htwo) as [= ->].
      exists (c :: t). by rewrite <- token_first_warning_cookie.
    + pose proof (download_sends_handshake g driveid filename destination w _
                    (sent_by_then_sent _ _ _ _ Hrun)) as Hone.
      by pose proof (sent_by_unique _ _ _ _ Hsent Hone).
Qed.

End handshake.

(** A response with the cookie [download_warning_13Ab=TOKEN123]. *)
Lemma confirmation_handshake_spec_witness :
  let d := Py.lit "14mELuzm0OvXnwjb0mzAiG-Ake9_NP_LQ" in
  sent_by (@download_file_from_google_drive (Ref.challenging (Py.lit "TOKEN123"))
             web_globals d None (Py.lit "."))
    Ref.empty_world
    [initial_request d; confirmed_request d (Py.lit "TOKEN123")].
Proof.
  intros d.
  destruct (@confirmation_handshake_spec (Ref.challenging (Py.lit "TOKEN123"))
              web_globals d None (Py.lit ".") Ref.empty_world
              (Ref.response_of
                 [(Py.lit "download_warning_13Ab", Py.lit "TOKEN123")] [])
              eq_refl) as (Htoken & _ & _).
  destruct (Htoken (Py.lit "TOKEN123")) as (_ & _ & _ & Hsent).
  - exists [], (Py.lit "download_warning_13Ab"), [].
    split_and!; [reflexivity | vm_compute; reflexivity | constructor].
  - vm_compute. discriminate.
  - exact Hsent.
Defined.

(** C1 as the specification words it fails on a warning cookie with an
    empty value: the cookie's key starts with [download_warning], the
    token [''] is falsy, and the session sends no second request. *)
Lemma confirmation_handshake_skips_empty_token :
  ¬ handshake_as_specified (Ref.challenging [])
      (Py.lit "14mELuzm0OvXnwjb0mzAiG-Ake9_NP_LQ") Ref.empty_world.
Proof.
  intros Hspec.
  destruct (Hspec (Ref.response_of [(Py.lit "download_warning_13Ab", [])] [])
              eq_refl) as [Hsecond _].
  destruct Hsecond as [second Hsent].
  - exists (Py.lit "download_warning_13Ab"), [].
    split; [left | vm_compute; reflexivity].
  - vm_compute in Hsent. discriminate Hsent.
Qed.

(** ** The download as a whole *)

(** Nothing in the module, and no builtin, is called [fileanme]. *)
Lemma fileanme_unbound :
  load_name web_globals "fileanme" = raise (NameError "fileanme").
Proof. apply load_name_unbound; vm_compute; reflexivity. Qed.

Section download.
Context `{Libs}.
Variables (driveid : Py.str) (filename : option Py.str) (destination : Py.str).
Variable w : world.

(** C10: with the globals of the module no call completes; a call that
    gets as far as the save step raises [NameError] on [fileanme]
    there.  What the last line returns, in a namespace where the call
    can get to it, is the absolute path of [destination]. *)
Theorem download_never_completes :
  (∃ e, fst (download_file_from_google_drive web_globals driveid filename
               destination w) = Raise e)
  ∧ (∀ x w1,
       download_steps_before_save web_globals driveid filename w = (Ok x, w1) →
       download_file_from_google_drive web_globals driveid filename destination w
       = (Raise (NameError "fileanme"), w1))
  ∧ (∀ g v w',
       download_file_from_google_drive g driveid filename destination w
       = (Ok v, w') → v = abspath destination)
  ∧ (∀ g s n x w1,
       g !! "fileanme" = Some (PStr s) →
       g !! "CHUNK_SIZE" = Some (PInt n) →
       download_steps_before_save g driveid filename w = (Ok x, w1) →
       openable (destination_path s destination) = true →
       fst (download_file_from_google_drive g driveid filename destination w)
       = Ok (abspath destination)).
Proof.
  split_and!.
  - unfold download_file_from_google_drive. run.
    destruct (download_steps_before_save _ _ _ w) as [[[r fn]|e] w1]; [|eauto].
    rewrite fileanme_unbound. run. eauto.
  - intros [r fn] w1 Hsteps. unfold download_file_from_google_drive. run.
    rewrite Hsteps, fileanme_unbound. by run.
  - intros g v w'. unfold download_file_from_google_drive. run.
    destruct (download_steps_before_save _ _ _ w) as [[[r fn]|e] w1]; [|done].
    destruct (load_name g "fileanme" w1) as [[v1|e] w2]; [|done].
    destruct (as_str v1 w2) as [[s|e] w3]; [|done].
    destruct (save_response_content g r s destination _ w3) as [[p|e] w4];
      [|done].
    by intros [= <- _].
  - intros g s n [r fn] w1 Hname Hsize Hsteps Hopen.
    unfold download_file_from_google_drive. run.
    rewrite Hsteps, (load_name_bound _ _ _ Hname). run.
    unfold as_str. run.
    by rewrite (save_response_content_bound r s destination _ w1 g n Hsize Hopen).
Qed.

End download.

(** A namespace that binds both missing names: the call completes and
    returns the absolute path of the current directory. *)
Lemma download_never_completes_witness :
  fst (@download_file_from_google_drive (Ref.challenging (Py.lit "TOKEN123"))
         (<["fileanme" := PStr (Py.lit "model.h5")]>
            (<["CHUNK_SIZE" := PInt 32768]> web_globals))
         (Py.lit "https://drive.google.com/open?id=14mELuzm0OvXnwjb0mzAiG-Ake9_NP_LQ")
         (Some (Py.lit "model.h5")) (Py.lit ".") Ref.empty_world)
  = Ok (Py.lit "/cwd").
Proof.
  set (g := <["fileanme" := PStr (Py.lit "model.h5")]>
              (<["CHUNK_SIZE" := PInt 32768]> web_globals)).
  set (L := Ref.challenging (Py.lit "TOKEN123")).
  set (url := Py.lit "https://drive.google.com/open?id=14mELuzm0OvXnwjb0mzAiG-Ake9_NP_LQ").
  destruct (@download_never_completes L url (Some (Py.lit "model.h5"))
              (Py.lit ".") Ref.empty_world) as (_ & _ & _ & Hdone).
  rewrite (Hdone g (Py.lit "model.h5") 32768%Z
             (Ref.response_of
                [(Py.lit "download_warning_13Ab", Py.lit "TOKEN123")] [],
              Some (Py.lit "model.h5"))
             (snd (@download_steps_before_save L g url (Some (Py.lit "model.h5"))
                        Ref.empty_world))).
  - vm_compute. reflexivity.
  - vm_compute. reflexivity.
  - vm_compute. reflexivity.
  - vm_compute. reflexivity.
  - vm_compute. reflexivity.
Defined.

(** ** What a computation emits and what it does to the files *)

Section acts.
Context {P : event → Prop}.
Context {F : gmap Py.str Py.bytes → gmap Py.str Py.bytes → Prop}.
Hypothesis F_refl : ∀ f, F f f.
Hypothesis F_trans : ∀ f1 f2 f3, F f1 f2 → F f2 f3 → F f1 f3.

Lemma acts_pure {A} (o : outcome A) : acts P F (λ w, (o, w)).
Proof using F_refl.
  intros w. exists []. cbn [snd]. by rewrite app_nil_r.
Qed.

Lemma acts_ret {A} (a : A) : acts P F (ret a).
Proof using F_refl. apply acts_pure. Qed.

Lemma acts_raise {A} (e : exn) : acts P F (@raise A e).
Proof using F_refl. apply acts_pure. Qed.

Lemma acts_call {A} (o : outcome A) : acts P F (call o).
Proof using F_refl. apply acts_pure. Qed.

Lemma acts_emit (ev : event) : P ev → acts P F (emit ev).
Proof using F_refl.
  intros Hev w. exists [ev]. cbn [snd emit events files].
  split_and!; [done | by constructor | done].
Qed.

Lemma acts_then {A B} (m : M A) (k : outcome A → M B) :
  acts P F m → (∀ o, acts P F (k o)) →
  acts P F (λ w, let '(o, w') := m w in k o w').
Proof using F_trans.
  intros Hm Hk w. destruct (Hm w) as (new & Hev & Hnew & Hfiles).
  destruct (m w) as [o w1]; cbn [snd] in *.
  destruct (Hk o w1) as (new' & Hev' & Hnew' & Hfiles').
  exists (new ++ new'). split_and!.
  - by rewrite Hev', Hev, (assoc_L (++)).
  - by apply Forall_app.
  - by eapply F_trans.
Qed.

Lemma acts_bind {A B} (m : M A) (f : A → M B) :
  acts P F m → (∀ a, acts P F (f a)) → acts P F (bind m f).
Proof using F_refl F_trans.
  intros Hm Hf.
  pose proof (acts_then m (λ o, match o with Ok a => f a | Raise e => raise e end)
                Hm) as Hthen.
  intros w. specialize (Hthen ltac:(intros [a|e]; [apply Hf | apply acts_raise]) w).
  unfold acts, bind in *. destruct (m w) as [[a|e] w1]; exact Hthen.
Qed.

Lemma acts_try_except {A} (body : M A) (handler : exn → M A) :
  acts P F body → (∀ e, acts P F (handler e)) →
  acts P F (try_except body handler).
Proof using F_refl F_trans.
  intros Hb Hh.
  pose proof (acts_then body
                (λ o, match o with Ok a => ret a | Raise e => handler e end) Hb)
    as Hthen.
  intros w. specialize (Hthen ltac:(intros [a|e]; [apply acts_ret | apply Hh]) w).
  unfold acts, try_except in *. destruct (body w) as [[a|e] w1]; exact Hthen.
Qed.

Lemma acts_try_finally {A} (body : M A) (cleanup : M unit) :
  acts P F body → acts P F cleanup → acts P F (try_finally body cleanup).
Proof using F_refl F_trans.
  intros Hb Hc.
  pose proof (acts_then body
                (λ o, match o with
                      | Ok a => bind cleanup (λ _, ret a)
                      | Raise e => bind cleanup (λ _, raise e)
                      end) Hb) as Hthen.
  intros w.
  specialize (Hthen ltac:(intros [a|e]; apply acts_bind; try done;
                          intros _; [apply acts_ret | apply acts_raise]) w).
  unfold acts, try_finally in *. destruct (body w) as [[a|e] w1]; exact Hthen.
Qed.

Lemma acts_for_each {A} (l : list A) (body : A → M unit) :
  (∀ a, acts P F (body a)) → acts P F (for_each l body).
Proof using F_refl F_trans.
  intros Hb. induction l as [|a l IH]; cbn [for_each].
  - apply acts_ret.
  - by apply acts_bind.
Qed.

Lemma acts_load_name (g : gmap string pyval) (name : string) :
  acts P F (load_name g name).
Proof using F_refl.
  unfold load_name. destruct (g !! name); [apply acts_ret|].
  destruct (builtins !! name); [apply acts_ret | apply acts_raise].
Qed.

Lemma acts_exc_matches (e : exn) (v : pyval) : acts P F (exc_matches e v).
Proof using F_refl. destruct v; first [apply acts_ret | apply acts_raise]. Qed.

Lemma acts_exc_matches_any (e : exn) (vs : list pyval) :
  acts P F (exc_matches_any e vs).
Proof using F_refl F_trans.
  induction vs as [|v vs IH]; cbn [exc_matches_any]; [apply acts_ret|].
  apply acts_bind; [apply acts_exc_matches|]. intros b.
  apply acts_bind; [done|]. intros b'. apply acts_ret.
Qed.

Lemma acts_py_call (f : pyval) : acts P F (py_call f).
Proof using F_refl. destruct f; first [apply acts_ret | apply acts_raise]. Qed.

Lemma acts_py_call1 (f arg : pyval) : acts P F (py_call1 f arg).
Proof using F_refl. destruct f; first [apply acts_ret | apply acts_raise]. Qed.

Lemma acts_as_str (v : pyval) : acts P F (as_str v).
Proof using F_refl. destruct v; first [apply acts_ret | apply acts_raise]. Qed.

Lemma acts_str_isinstance (v : pyval) : acts P F (str_isinstance v).
Proof using F_refl. destruct v; first [apply acts_ret | apply acts_raise]. Qed.

End acts.

Lemma acts_mono {A : Type} (P Q : event → Prop)
    (F G : gmap Py.str Py.bytes → gmap Py.str Py.bytes → Prop) (m : M A) :
  (∀ ev, P ev → Q ev) → (∀ f f', F f f' → G f f') →
  acts P F m → acts Q G m.
Proof.
  intros HPQ HFG Hm w. destruct (Hm w) as (new & Hev & Hnew & Hfiles).
  exists new. split_and!; [done | by eapply Forall_impl | by apply HFG].
Qed.

Lemma same_but_refl (p : Py.str) (f : gmap Py.str Py.bytes) : same_but p f f.
Proof. by intros q _. Qed.

Lemma same_but_trans (p : Py.str) (f1 f2 f3 : gmap Py.str Py.bytes) :
  same_but p f1 f2 → same_but p f2 f3 → same_but p f1 f3.
Proof. intros H12 H23 q Hq. by rewrite H23, H12. Qed.

(** The side conditions on the relation between file systems. *)
Ltac frame_side :=
  first [ by intros ? | by intros ??? -> ->
        | apply same_but_refl | apply same_but_trans
        | intros; exact I ].

(** Takes a computation apart along its binds, handlers and branches;
    what is left are the events it emits. *)
Ltac acts_step :=
  match goal with
  | |- acts _ _ (bind _ _) =>
      apply acts_bind; [frame_side | frame_side | | intros ?]
  | |- acts _ _ (try_except _ _) =>
      apply acts_try_except; [frame_side | frame_side | | intros ?]
  | |- acts _ _ (try_finally _ _) =>
      apply acts_try_finally; [frame_side | frame_side | | ]
  | |- acts _ _ (for_each _ _) =>
      apply acts_for_each; [frame_side | frame_side | intros ?]
  | |- acts _ _ (ret _) => apply acts_ret; frame_side
  | |- acts _ _ (raise _) => apply acts_raise; frame_side
  | |- acts _ _ (call _) => apply acts_call; frame_side
  | |- acts _ _ (log _ _) => apply acts_emit; [frame_side | done]
  | |- acts _ _ (emit _) => apply acts_emit; [frame_side | done]
  | |- acts _ _ (load_name _ _) => apply acts_load_name; frame_side
  | |- acts _ _ (exc_matches _ _) => apply acts_exc_matches; frame_side
  | |- acts _ _ (exc_matches_any _ _) =>
      apply acts_exc_matches_any; frame_side
  | |- acts _ _ (py_call _) => apply acts_py_call; frame_side
  | |- acts _ _ (py_call1 _ _) => apply acts_py_call1; frame_side
  | |- acts _ _ (as_str _) => apply acts_as_str; frame_side
  | |- acts _ _ (str_isinstance _) => apply acts_str_isinstance; frame_side
  | |- acts _ _ (if ?b then _ else _) => destruct b
  | |- acts _ _ (match ?x with _ => _ end) => destruct x
  end.

Section acts_functions.
Context `{Libs}.
Variable g : gmap string pyval.

Lemma acts_try_parse_url (url : Py.str) : acts is_log eq (try_parse_url url).
Proof. unfold try_parse_url. repeat acts_step. Qed.

Lemma acts_requests_get (req : request) :
  acts is_title_lookup eq (requests_get req).
Proof. unfold requests_get. repeat acts_step. Qed.

Lemma acts_session_get (req : request) : acts is_session_get eq (session_get req).
Proof. unfold session_get. repeat acts_step. Qed.

End acts_functions.

(** ** More on drive-ID extraction *)

Lemma after_last_clean (sep s t : Py.str) :
  sep ≠ [] → after_last sep s t → ¬ occurs sep t.
Proof.
  intros Hsep (p & -> & Hmax) (q & u & ->).
  specialize (Hmax (p ++ sep ++ q) u).
  rewrite <- !(assoc_L (++)) in Hmax. specialize (Hmax eq_refl).
  rewrite !length_app in Hmax. destruct sep; [done|]. simpl in Hmax. lia.
Qed.

Lemma occurs_suffix (sep p t : Py.str) : occurs sep t → occurs sep (p ++ t).
Proof.
  intros (q & u & ->). exists (p ++ q), u. by rewrite <- !(assoc_L (++)).
Qed.

(** One rule of the extraction, for a marker whose first character does
    not come back in it: what is left is an end of the string and holds
    the marker no more. *)
Lemma cut_after_marker (c : N) (rest s : Py.str) :
  c ∉ rest →
  let r := if Py.contains (c :: rest) s
           then Py.last_item (Py.split s (c :: rest)) else s in
  ¬ occurs (c :: rest) r ∧ ∃ p, s = p ++ r.
Proof.
  intros Hfresh. cbv zeta.
  destruct (Py.contains (c :: rest) s) eqn:E.
  - apply PyFacts.contains_iff in E.
    pose proof (PyFacts.last_split c rest Hfresh s E) as Hlast.
    split; [by apply (after_last_clean (c :: rest) s)|].
    destruct Hlast as (p & Hs & _). exists (p ++ c :: rest).
    by rewrite <- (assoc_L (++)).
  - apply PyFacts.contains_false in E. split; [done|]. by exists [].
Qed.

(** X1: the extracted id is an end of the input and holds neither
    marker; extracting from it again changes nothing. *)
Theorem extract_driveid_clean (s : Py.str) :
  ¬ occurs (Py.lit "&id=") (extract_driveid s)
  ∧ ¬ occurs (Py.lit "?id=") (extract_driveid s)
  ∧ (∃ p, s = p ++ extract_driveid s)
  ∧ extract_driveid (extract_driveid s) = extract_driveid s.
Proof.
  assert (¬ occurs (Py.lit "&id=") (extract_driveid s)
          ∧ ¬ occurs (Py.lit "?id=") (extract_driveid s)
          ∧ ∃ p, s = p ++ extract_driveid s) as (Hamp & Hq & Hend).
  { unfold extract_driveid.
    destruct (cut_after_marker 38%N (Py.lit "id=") s amp_id_unbordered)
      as (Hamp & p1 & Hs).
    change (38%N :: Py.lit "id=") with (Py.lit "&id=") in *.
    set (r1 := if Py.contains (Py.lit "&id=") s
               then Py.last_item (Py.split s (Py.lit "&id=")) else s) in *.
    destruct (cut_after_marker 63%N (Py.lit "id=") r1 question_id_unbordered)
      as (Hq & p2 & Hr1).
    change (63%N :: Py.lit "id=") with (Py.lit "?id=") in *.
    set (r2 := if Py.contains (Py.lit "?id=") r1
               then Py.last_item (Py.split r1 (Py.lit "?id=")) else r1) in *.
    split_and!; [|done|].
    - intros Hocc. apply Hamp. rewrite Hr1. by apply occurs_suffix.
    - exists (p1 ++ p2). rewrite Hs at 1. rewrite Hr1 at 1.
      by rewrite (assoc_L (++)). }
  split_and!; [done | done | done |].
  apply PyFacts.contains_false in Hamp, Hq.
  set (d := extract_driveid s) in *. unfold extract_driveid.
  by rewrite Hamp, Hq.
Qed.

(** ** More on URL normalisation *)

Lemma world_eta (w : world) :
  {| events := events w ++ []; files := files w |} = w.
Proof. destruct w. cbn. by rewrite app_nil_r. Qed.

Section normaliser_more.
Context `{Libs}.

(** X2: whatever [try_parse_url] returns has a scheme: it is the parse of the
    text, or the parse of its [geturl()] behind [http://]; a successful
    call logs nothing. *)
Theorem try_parse_url_success (url : Py.str) (w w' : world) (p : ParseResult) :
  try_parse_url url w = (Ok (Some p), w') →
  w' = w
  ∧ scheme p ≠ []
  ∧ 4 ≤ length (Py.strip url)
  ∧ (urlparse url = Ok p
     ∨ ∃ p0, urlparse url = Ok p0 ∧ scheme p0 = []
             ∧ urlparse (Py.lit "http://" ++ geturl p0) = Ok p).
Proof.
  unfold try_parse_url.
  destruct (length (Py.strip url) <? 4) eqn:Hlen; run; [done|].
  apply Nat.ltb_ge in Hlen.
  destruct (urlparse url) as [p0|e] eqn:E1;
    [|destruct (isinstance e "builtins.ValueError"); done].
  case_bool_decide as Hs0; cbn [negb].
  - destruct (urlparse (Py.lit "http://" ++ geturl p0)) as [p1|e] eqn:E2;
      [|destruct (isinstance e "builtins.ValueError"); done].
    case_bool_decide as Hs1; [done|].
    intros [= <- <-]. split_and!; [done..|]. right. by exists p0.
  - intros [= <- <-]. split_and!; [done..|]. by left.
Qed.

(** X3: every failure is logged, once, at level [info]; success and a
    propagated exception leave the world as it was.  The files are never
    touched. *)
Theorem try_parse_url_logs_failures (url : Py.str) (w : world) :
  ∃ new,
    snd (try_parse_url url w)
    = {| events := events w ++ new; files := files w |}
    ∧ match fst (try_parse_url url w) with
      | Ok None => ∃ msg, new = [EvLog "info" (PStr msg)]
      | _ => new = []
      end.
Proof.
  unfold try_parse_url.
  destruct (length (Py.strip url) <? 4); run; [eauto|].
  destruct (urlparse url) as [p0|e] eqn:E1.
  - case_bool_decide as Hs0; cbn [negb].
    + destruct (urlparse (Py.lit "http://" ++ geturl p0)) as [p1|e] eqn:E2.
      * case_bool_decide as Hs1; [eauto|].
        exists []. by rewrite world_eta.
      * destruct (isinstance e "builtins.ValueError"); [eauto|].
        exists []. by rewrite world_eta.
    + exists []. by rewrite world_eta.
  - destruct (isinstance e "builtins.ValueError"); [eauto|].
    exists []. by rewrite world_eta.
Qed.

End normaliser_more.

(** ["example.com"] on the stand-in libraries. *)
Lemma try_parse_url_success_witness :
  scheme {| scheme := Py.lit "http"; netloc := Py.lit "example.com";
            path := []; params := []; query := []; fragment := [] |} ≠ [].
Proof.
  refine (proj1 (proj2 (@try_parse_url_success Ref.offline
                          (Py.lit "example.com") Ref.empty_world Ref.empty_world
                          _ _))).
  vm_compute. reflexivity.
Defined.

(** ** Running the monad one step at a time *)

Lemma bind_run {A B} (m : M A) (f : A → M B) (w : world) :
  bind m f w
  = match m w with
    | (Ok a, w') => f a w'
    | (Raise e, w') => (Raise e, w')
    end.
Proof. reflexivity. Qed.

Lemma try_except_run {A} (body : M A) (handler : exn → M A) (w : world) :
  try_except body handler w
  = match body w with
    | (Raise e, w') => handler e w'
    | r => r
    end.
Proof. reflexivity. Qed.

Lemma world_of_parts (w : world) (evs : list event) (fs : gmap Py.str Py.bytes) :
  events w = evs → fs = files w → w = {| events := evs; files := fs |}.
Proof. destruct w. cbn. by intros -> ->. Qed.

(** The names the [except] clauses of the module read. *)
Lemma ConnectionError_builtin :
  load_name web_globals "ConnectionError"
  = ret (PClass "builtins.ConnectionError").
Proof.
  unfold load_name.
  assert (web_globals !! "ConnectionError" = None) as -> by (vm_compute; reflexivity).
  assert (builtins !! "ConnectionError" = Some (PClass "builtins.ConnectionError"))
    as -> by (vm_compute; reflexivity).
  reflexivity.
Qed.

Lemma format_exc_unbound :
  load_name web_globals "format_exc" = raise (NameError "format_exc").
Proof. apply load_name_unbound; vm_compute; reflexivity. Qed.

Lemma InvalidURL_unbound :
  load_name web_globals "InvalidURL" = raise (NameError "InvalidURL").
Proof. apply load_name_unbound; vm_compute; reflexivity. Qed.

(** What a handler adds to the world its [try] body left. *)
Lemma try_except_caught {A} (P : event → Prop) (body : M A)
    (handler : exn → M A) (w w2 : world) (o : outcome A) :
  (∀ e, acts P eq (handler e)) →
  body w = (o, w2) →
  ∃ new,
    snd (try_except body handler w)
    = {| events := events w2 ++ new; files := files w2 |}
    ∧ Forall P new.
Proof.
  intros Hh Hbody. rewrite try_except_run, Hbody.
  destruct o as [a|e].
  - exists []. by rewrite world_eta.
  - destruct (Hh e w2) as (new & Hev & Hnew & Hfiles).
    exists new. split; [|done]. by apply world_of_parts.
Qed.

(** ** More on the title lookup *)

Section title_more.
Context `{Libs}.

Lemma requests_get_run (req : request) (w : world) :
  requests_get req w = (http_get req, and_then w (EvRequestsGet req)).
Proof. unfold requests_get. run. by destruct (http_get req). Qed.

Lemma title_lookup_failed (url : Py.str) (w w1 : world)
    (p : ParseResult) (e : exn) :
  try_parse_url url w = (Ok (Some p), w1) →
  title_of_page p = Raise e →
  fst (get_url_title web_globals url w)
  = Raise (NameError (if isinstance e "builtins.ConnectionError"
                      then "format_exc" else "InvalidURL")).
Proof.
  intros Htry Hpage. unfold get_url_title.
  rewrite bind_run, Htry, try_except_run, bind_run, requests_get_run.
  fold (title_request p). unfold title_of_page in Hpage.
  destruct (http_get (title_request p)) as [r|e'].
  - rewrite bind_run. unfold call at 1. rewrite Hpage.
    run. rewrite ConnectionError_builtin. run. unfold exc_matches. run.
    destruct (isinstance e "builtins.ConnectionError");
      [rewrite format_exc_unbound | rewrite InvalidURL_unbound]; by run.
  - injection Hpage as ->.
    run. rewrite ConnectionError_builtin. run. unfold exc_matches. run.
    destruct (isinstance e "builtins.ConnectionError");
      [rewrite format_exc_unbound | rewrite InvalidURL_unbound]; by run.
Qed.

Lemma title_lookup_answered (g : gmap string pyval) (url : Py.str)
    (w w1 : world) (p : ParseResult) (t : option Py.str) :
  try_parse_url url w = (Ok (Some p), w1) →
  title_of_page p = Ok t →
  fst (get_url_title g url w) = Ok t.
Proof.
  intros Htry Hpage. unfold get_url_title.
  rewrite bind_run, Htry, try_except_run, bind_run, requests_get_run.
  fold (title_request p). unfold title_of_page in Hpage.
  destruct (http_get (title_request p)) as [r|e']; [|done].
  rewrite bind_run. unfold call at 1. by rewrite Hpage.
Qed.

(** X4: with the globals of the module the title lookup has three
    outcomes.  A rejected URL gives [None]; a page that came gives what
    [lxml] finds in it, [None] when it has no title; and an exception of
    the request or of the parser never gives [None] but [NameError], on
    [format_exc] when the builtin [ConnectionError] was caught and on
    [InvalidURL], while the second [except] clause is evaluated, for
    every other exception, those of [requests] included. *)
Theorem get_url_title_outcome (url : Py.str) (w : world) :
  fst (get_url_title web_globals url w)
  = match fst (try_parse_url url w) with
    | Ok (Some p) =>
        match title_of_page p with
        | Ok title => Ok title
        | Raise e =>
            Raise (NameError (if isinstance e "builtins.ConnectionError"
                              then "format_exc" else "InvalidURL"))
        end
    | Ok None => Ok None
    | Raise e => Raise e
    end.
Proof.
  destruct (try_parse_url url w) as [[[p|]|e] w1] eqn:Htry; cbn [fst].
  - destruct (title_of_page p) as [t|e] eqn:Hpage.
    + apply (title_lookup_answered web_globals url w w1 p t Htry Hpage).
    + apply (title_lookup_failed url w w1 p e Htry Hpage).
  - unfold get_url_title. by rewrite bind_run, Htry.
  - unfold get_url_title. by rewrite bind_run, Htry.
Qed.

(** X5: in any namespace the title lookup sends no request for a URL that
    [try_parse_url] rejects, and exactly one otherwise, for the
    [geturl()] text of the parse; after the request it can only log, and
    it never touches the files. *)
Theorem get_url_title_traffic (g : gmap string pyval) (url : Py.str) (w : world) :
  match try_parse_url url w with
  | (Ok (Some p), w1) =>
      ∃ logs,
        snd (get_url_title g url w)
        = {| events := events w1 ++ EvRequestsGet (title_request p) :: logs;
             files := files w1 |}
        ∧ Forall is_log logs
  | (_, w1) => snd (get_url_title g url w) = w1
  end.
Proof.
  unfold get_url_title. rewrite bind_run.
  destruct (try_parse_url url w) as [[[p|]|e] w1]; [|done..].
  match goal with
  | |- context [try_except ?b ?h w1] =>
      destruct (try_except_caught is_log b h w1
                  (and_then w1 (EvRequestsGet (title_request p)))
                  (title_of_page p)) as (logs & Hw & Hlogs)
  end.
  - intros e. repeat acts_step.
  - rewrite bind_run, requests_get_run. fold (title_request p).
    unfold title_of_page.
    destruct (http_get (title_request p)) as [r|e]; [|done].
    rewrite bind_run. unfold call at 1.
    by destruct (html_title (content r)).
  - exists logs. rewrite Hw. split; [|done].
    cbn [and_then events files]. by rewrite <- (assoc_L (++)).
Qed.

End title_more.


(** ** Effects of the functions *)

Lemma acts_weaken {A : Type} (P Q : event → Prop)
    (F : gmap Py.str Py.bytes → gmap Py.str Py.bytes → Prop) (m : M A) :
  (∀ f, F f f) → (∀ ev, P ev → Q ev) → acts P eq m → acts Q F m.
Proof.
  intros HF HPQ. apply acts_mono; [done|]. intros f f' ->. apply HF.
Qed.

Section effects.
Context `{Libs}.
Variable g : gmap string pyval.

Lemma acts_get_url_title (url : Py.str) :
  acts is_log_or_lookup eq (get_url_title g url).
Proof.
  unfold get_url_title. acts_step.
  - apply (acts_weaken is_log); [done | by intros [] | apply acts_try_parse_url].
  - acts_step; [|acts_step]. acts_step.
    + acts_step; [|repeat acts_step].
      apply (acts_weaken is_title_lookup);
        [done | by intros [] | apply acts_requests_get].
    + repeat acts_step.
Qed.

Lemma acts_get_url_filename (url driveid : option Py.str) :
  acts is_log_or_lookup eq (get_url_filename g url driveid).
Proof.
  unfold get_url_filename. cbv zeta. acts_step; [|repeat acts_step].
  acts_step; [apply acts_get_url_title|]. repeat acts_step.
Qed.

Lemma acts_confirmation_handshake (driveid : Py.str) :
  acts is_session_get eq (confirmation_handshake driveid).
Proof.
  unfold confirmation_handshake. acts_step; [apply acts_session_get|].
  cbv zeta. acts_step; [apply acts_session_get | acts_step].
Qed.

Lemma acts_download_steps_before_save (driveid : Py.str)
    (filename : option Py.str) :
  acts no_file_event eq (download_steps_before_save g driveid filename).
Proof.
  unfold download_steps_before_save. cbv zeta. acts_step.
  - apply (acts_weaken is_session_get);
      [done | by intros [] | apply acts_confirmation_handshake].
  - acts_step; [|acts_step]. acts_step; [acts_step|].
    apply (acts_weaken is_log_or_lookup);
      [done | by intros [] | apply acts_get_url_filename].
Qed.

Lemma acts_open_wb (p : Py.str) : acts is_file_event (same_but p) (open_wb p).
Proof.
  intros w. unfold open_wb. destruct (openable p); cbn [snd events files].
  - exists [EvOpen p]. split_and!; [done | by constructor |].
    intros q Hq. by rewrite lookup_insert_ne.
  - exists []. rewrite app_nil_r. split_and!; [done | done | by intros q].
Qed.

Lemma acts_file_write (p : Py.str) (data : Py.bytes) :
  acts is_file_event (same_but p) (file_write p data).
Proof.
  intros w. exists [EvWrite p data]. cbn [snd file_write events files].
  split_and!; [done | by constructor |].
  intros q Hq. by rewrite lookup_insert_ne.
Qed.

Lemma acts_response_iter_content (p : Py.str) (r : response) (v : pyval) :
  acts is_file_event (same_but p) (response_iter_content r v).
Proof. unfold response_iter_content. repeat acts_step. Qed.

Lemma acts_save_response_content (r : response)
    (filename destination : Py.str) (chunksize : option Z) :
  acts is_file_event (same_but (destination_path filename destination))
    (save_response_content g r filename destination chunksize).
Proof.
  unfold save_response_content. cbv zeta.
  acts_step; [apply acts_open_wb|]. acts_step; [|acts_step].
  acts_step; [|acts_step].
  acts_step; [acts_step|]. acts_step; [apply acts_response_iter_content|].
  acts_step. acts_step; [acts_step | apply acts_file_write].
Qed.

End effects.

(** ** More on filename resolution, the token and the writer *)

Section resolver_more.
Context `{Libs}.
Variable g : gmap string pyval.

(** X6: an explicit URL that does not start with [https://drive.google.com]
    is never looked up: whatever the drive id, the answer is [None], with
    one warning logged and no request sent. *)
Theorem get_url_filename_other_host (u : Py.str) (driveid : option Py.str)
    (w : world) :
  u ≠ [] →
  Py.startswith u (Py.lit "https://drive.google.com") = false →
  get_url_filename g (Some u) driveid w
  = (Ok None,
     and_then w
       (EvLog "warn"
          (PStr (Py.lit "Unable to find filename for the URL "
                 ++ Py.dquote ++ u ++ Py.dquote)))).
Proof.
  intros Hu Hhost. unfold get_url_filename, url_or_drive_page.
  destruct u as [|c u]; [done|]. cbn [Py.truthy default from_option id].
  cbv zeta. rewrite Hhost. by run.
Qed.

(** X7: in any namespace resolution only looks titles up and logs: it
    sends nothing through the session and never touches the files. *)
Theorem get_url_filename_effects (url driveid : option Py.str) (w : world) :
  ∃ new,
    events (snd (get_url_filename g url driveid w)) = events w ++ new
    ∧ Forall is_log_or_lookup new
    ∧ files (snd (get_url_filename g url driveid w)) = files w.
Proof.
  destruct (acts_get_url_filename g url driveid w) as (new & Hev & Hnew & Hf).
  by exists new.
Qed.

End resolver_more.

(** [http://example.com/file], with a drive id that is ignored. *)
Lemma get_url_filename_other_host_witness :
  fst (@get_url_filename Ref.offline web_globals
         (Some (Py.lit "http://example.com/file"))
         (Some (Py.lit "14mELuzm0OvXnwjb0mzAiG-Ake9_NP_LQ")) Ref.empty_world)
  = Ok None.
Proof.
  rewrite (@get_url_filename_other_host Ref.offline web_globals
             (Py.lit "http://example.com/file")
             (Some (Py.lit "14mELuzm0OvXnwjb0mzAiG-Ake9_NP_LQ"))
             Ref.empty_world).
  - reflexivity.
  - vm_compute. discriminate.
  - vm_compute. reflexivity.
Defined.

(** X8: the token is the value of the first cookie, in the order of the jar,
    whose key starts with [download_warning]; the cookies behind it play
    no part, and there is no token exactly when no key starts so. *)
Theorem confirmation_token_spec (r : response) :
  (∀ v, get_response_confirmation_token r = Some v ↔ first_warning_cookie r v)
  ∧ (get_response_confirmation_token r = None ↔ ¬ has_warning_cookie r)
  ∧ (∀ pre k v post body1 body2 more,
       cookies r = pre ++ (k, v) :: post →
       Py.startswith k (Py.lit "download_warning") = true →
       get_response_confirmation_token
         {| cookies := pre ++ (k, v) :: more; content := body1;
            iter_content := body2 |}
       = get_response_confirmation_token r).
Proof.
  split_and!.
  - intros v. apply token_first_warning_cookie.
  - apply no_token_no_warning_cookie.
  - intros pre k v post body1 body2 more Hr Hk.
    unfold get_response_confirmation_token. rewrite Hr. cbn [cookies].
    clear Hr. induction pre as [|[k' v'] pre IH]; cbn -[Py.startswith Py.lit].
    + by rewrite Hk.
    + by destruct (Py.startswith k' (Py.lit "download_warning")).
Qed.

Section writer_more.
Context `{Libs}.
Variables (response : response) (filename destination : Py.str).
Variables (chunksize : option Z) (w : world).

(** X9: in any namespace the writer emits file events only, and every file
    but the one at its destination path holds after the call what it
    held before. *)
Theorem save_response_content_frame (g : gmap string pyval) :
  let w' := snd (save_response_content g response filename destination
                   chunksize w) in
  (∃ new, events w' = events w ++ new ∧ Forall is_file_event new)
  ∧ ∀ q, q ≠ destination_path filename destination →
         files w' !! q = files w !! q.
Proof.
  destruct (acts_save_response_content g response filename destination
              chunksize w) as (new & Hev & Hnew & Hfiles).
  split; [by exists new | done].
Qed.

Lemma concat_nonempty (chunks : list Py.bytes) :
  concat (filter (λ c, c ≠ []) chunks) = concat chunks.
Proof.
  induction chunks as [|c chunks IH]; [done|].
  destruct c as [|b c].
  - by rewrite filter_cons_False by naive_solver.
  - rewrite filter_cons_True by done. cbn [concat]. by rewrite IH.
Qed.

(** X10: where [CHUNK_SIZE] is bound to an integer [n] and the file can be
    opened, the writer asks for blocks of [n] bytes, whatever [chunksize]
    is, writes the chunks that are not empty, in order, and leaves in the
    file their concatenation and nothing of what it held before. *)
Theorem save_response_content_contents (g : gmap string pyval) (n : Z) :
  let p := destination_path filename destination in
  let chunks := iter_content response (Some n) in
  let w' := snd (save_response_content g response filename destination
                   chunksize w) in
  g !! "CHUNK_SIZE" = Some (PInt n) →
  openable p = true →
  files w' !! p = Some (concat (filter (λ c, c ≠ []) chunks))
  ∧ events w'
    = events w ++ [EvOpen p; EvIterContent (Some n)]
      ++ (EvWrite p <$> filter (λ c, c ≠ []) chunks) ++ [EvClose p].
Proof.
  intros p chunks w' Hg Hopen. unfold w'.
  rewrite (save_response_content_bound response filename destination
             chunksize w g n Hg Hopen).
  cbn [snd events files]. fold p chunks.
  by rewrite lookup_insert_eq, concat_nonempty.
Qed.

End writer_more.

(** The body [b"abc", b"", b"def"] over a file that held [b"old"]. *)
Lemma save_response_content_contents_witness :
  files (snd (@save_response_content Ref.offline
                (<["CHUNK_SIZE" := PInt 3]> web_globals)
                (Ref.response_of [] [Py.lit "abc"; []; Py.lit "def"])
                (Py.lit "out.bin") (Py.lit ".") (Some 32768%Z)
                {| events := [];
                   files := {[ Py.lit "./out.bin" := Py.lit "old" ]} |}))
    !! Py.lit "./out.bin"
  = Some (Py.lit "abcdef").
Proof.
  destruct (@save_response_content_contents Ref.offline
              (Ref.response_of [] [Py.lit "abc"; []; Py.lit "def"])
              (Py.lit "out.bin") (Py.lit ".") (Some 32768%Z)
              {| events := [];
                 files := {[ Py.lit "./out.bin" := Py.lit "old" ]} |}
              (<["CHUNK_SIZE" := PInt 3]> web_globals) 3%Z)
    as [Hfile _].
  - vm_compute. reflexivity.
  - vm_compute. reflexivity.
  - change (destination_path (Py.lit "out.bin") (Py.lit "."))
      with (Py.lit "./out.bin") in Hfile.
    rewrite Hfile. vm_compute. reflexivity.
Defined.

(** ** More on the download as a whole *)

Section download_more.
Context `{Libs}.
Variables (driveid : Py.str) (filename : option Py.str) (destination : Py.str).
Variable w : world.

Lemma session_get_run (req : request) (w0 : world) :
  session_get req w0 = (http_get req, then_sent w0 [req]).
Proof. unfold session_get. run. by destruct (http_get req). Qed.

Lemma download_raises_with_handshake (g : gmap string pyval) (e : exn)
    (w1 : world) :
  confirmation_handshake (extract_driveid driveid) w = (Raise e, w1) →
  download_file_from_google_drive g driveid filename destination w
  = (Raise e, w1).
Proof.
  intros Hhand.
  unfold download_file_from_google_drive, download_steps_before_save.
  cbv zeta. rewrite !bind_run, Hhand. done.
Qed.

(** X11: the download catches nothing of the transport: an exception of the
    initial request, or of the confirmed one, comes out of
    [download_file_from_google_drive] as it is, right after the request
    that raised it. *)
Theorem download_transport_error (g : gmap string pyval) (e : exn) :
  let d := extract_driveid driveid in
  let download := download_file_from_google_drive g driveid filename destination in
  (http_get (initial_request d) = Raise e →
   download w = (Raise e, then_sent w [initial_request d]))
  ∧ (∀ r0 token,
       http_get (initial_request d) = Ok r0 →
       first_warning_cookie r0 token → token ≠ [] →
       http_get (confirmed_request d token) = Raise e →
       download w
       = (Raise e, then_sent w [initial_request d; confirmed_request d token])).
Proof.
  intros d download. subst d download. split.
  - intros Hget. apply download_raises_with_handshake.
    unfold confirmation_handshake. by rewrite bind_run, session_get_run, Hget.
  - intros r0 token Hget Htoken Hne Hget2. apply download_raises_with_handshake.
    rewrite (confirmation_handshake_run _ w r0 Hget).
    apply token_first_warning_cookie in Htoken. rewrite Htoken.
    destruct token as [|c t]; [done|]. by rewrite Hget2.
Qed.

(** X12: whatever the server answers, the session sends one request or two,
    never more: the initial one and, at most, one confirmed request for
    the same id. *)
Theorem download_at_most_two_requests (g : gmap string pyval) :
  let d := extract_driveid driveid in
  ∃ reqs,
    sent_by (download_file_from_google_drive g driveid filename destination)
      w reqs
    ∧ (reqs = [initial_request d]
       ∨ ∃ token, token ≠ [] ∧ reqs = [initial_request d; confirmed_request d token]).
Proof.
  intros d. subst d. set (d := extract_driveid driveid).
  assert (∃ o reqs,
            confirmation_handshake d w = (o, then_sent w reqs)
            ∧ (reqs = [initial_request d]
               ∨ ∃ token, token ≠ []
                          ∧ reqs = [initial_request d; confirmed_request d token]))
    as (o & reqs & Hrun & Hreqs).
  { destruct (http_get (initial_request d)) as [r0|e] eqn:Hget.
    - rewrite (confirmation_handshake_run d w r0 Hget).
      destruct (get_response_confirmation_token r0) as [[|c t]|]; eauto.
      do 2 eexists. split; [done|]. right. by exists (c :: t).
    - exists (Raise e), [initial_request d]. split; [|by left].
      unfold confirmation_handshake.
      by rewrite bind_run, session_get_run, Hget. }
  exists reqs. split; [|done].
  eapply download_sends_handshake, sent_by_then_sent, Hrun.
Qed.

(** X13: with the globals of the module a download never opens or writes a
    file: the file system after the call is the one before it. *)
Theorem download_leaves_files_alone :
  let w' := snd (download_file_from_google_drive web_globals driveid filename
                   destination w) in
  files w' = files w
  ∧ ∃ new, events w' = events w ++ new ∧ Forall no_file_event new.
Proof.
  cbv zeta. unfold download_file_from_google_drive. rewrite bind_run.
  destruct (acts_download_steps_before_save web_globals driveid filename w)
    as (new & Hev & Hnew & Hfiles).
  destruct (download_steps_before_save web_globals driveid filename w)
    as [[[r fn]|e] w1]; cbn [snd] in *.
  - rewrite fileanme_unbound. run. split; [done|]. by exists new.
  - split; [done|]. by exists new.
Qed.

(** X14: when the caller names the file, no title is looked up: in any
    namespace the only requests of the call are those of the session. *)
Theorem download_named_file_no_lookup (g : gmap string pyval) :
  Py.truthy filename = true →
  ∃ new,
    events (snd (download_file_from_google_drive g driveid filename
                   destination w))
    = events w ++ new
    ∧ Forall no_title_lookup new.
Proof.
  intros Hnamed.
  assert (acts no_title_lookup any_files
            (download_file_from_google_drive g driveid filename destination))
    as Hacts.
  { unfold download_file_from_google_drive, download_steps_before_save.
    cbv zeta. rewrite Hnamed. acts_step.
    - acts_step.
      + apply (acts_weaken is_session_get);
          [frame_side | by intros [] | apply acts_confirmation_handshake].
      + repeat acts_step.
    - destruct a as [r fn]. acts_step; [acts_step|]. acts_step; [acts_step|].
      acts_step; [|acts_step].
      eapply acts_mono; [| |apply acts_save_response_content].
      + by intros [].
      + intros; exact I. }
  destruct (Hacts w) as (new & Hev & Hnew & _). by exists new.
Qed.

End download_more.

(** A challenged download of a file the caller names. *)
Lemma download_named_file_no_lookup_witness :
  ∃ new,
    events (snd (@download_file_from_google_drive
                   (Ref.challenging (Py.lit "TOKEN123")) web_globals
                   (Py.lit "14mELuzm0OvXnwjb0mzAiG-Ake9_NP_LQ")
                   (Some (Py.lit "model.h5")) (Py.lit ".") Ref.empty_world))
    = events Ref.empty_world ++ new
    ∧ Forall no_title_lookup new.
Proof.
  apply (@download_named_file_no_lookup (Ref.challenging (Py.lit "TOKEN123"))).
  vm_compute. reflexivity.
Defined.

(** ** The base name of a path *)

Lemma rfind_None (s sub : Py.str) : rfind s sub = None → ¬ occurs sub s.
Proof.
  induction s as [|c s IH]; cbn [rfind].
  - destruct (Py.startswith [] sub) eqn:E; [done|].
    intros _ ([|??] & t & Heq); simpl in Heq; [|done].
    rewrite Heq, PyFacts.startswith_app in E. done.
  - destruct (rfind s sub) as [i|]; [done|].
    destruct (Py.startswith (c :: s) sub) eqn:E; [done|].
    intros _ ([|c' p] & t & Heq); simpl in Heq.
    + rewrite Heq, PyFacts.startswith_app in E. done.
    + injection Heq as -> Heq. apply IH; [done|]. by exists p, t.
Qed.

(** [rfind] answers the greatest position of an occurrence. *)
Lemma rfind_Some (s sub : Py.str) (i : nat) :
  rfind s sub = Some i →
  ∃ p t, s = p ++ sub ++ t ∧ length p = i
         ∧ ∀ p' t', s = p' ++ sub ++ t' → length p' ≤ i.
Proof.
  revert i; induction s as [|c s IH]; intros i; cbn [rfind].
  - destruct (Py.startswith [] sub) eqn:E; [|done].
    intros [= <-]. apply PyFacts.startswith_inv in E as [t Ht].
    exists [], t. split_and!; [done | done |].
    intros [|??] t' Heq; simpl in Heq; [done|done].
  - destruct (rfind s sub) as [j|] eqn:Ej.
    + intros [= <-]. destruct (IH j eq_refl) as (p & t & -> & <- & Hmax).
      exists (c :: p), t. split_and!; [done | done |].
      intros [|c' p'] t' Heq; simpl in *; [lia|].
      injection Heq as -> Heq. apply Hmax in Heq. lia.
    + apply rfind_None in Ej.
      destruct (Py.startswith (c :: s) sub) eqn:E; [|done].
      intros [= <-]. apply PyFacts.startswith_inv in E as [t Ht].
      exists [], t. split_and!; [done | done |].
      intros [|c' p'] t' Heq; simpl in *; [lia|].
      injection Heq as -> Heq. exfalso. apply Ej. by exists p', t'.
Qed.

Lemma basename_parts (p : Py.str) :
  (∃ head, p = head ++ os_path_basename p
           ∧ (head = [] ∨ ∃ h, head = h ++ os_path_sep))
  ∧ ¬ occurs os_path_sep (os_path_basename p).
Proof.
  unfold os_path_basename. cbv zeta.
  destruct (rfind p os_path_sep) as [i|] eqn:E.
  - apply rfind_Some in E as (h & t & -> & <- & Hmax).
    assert (drop (S (length h)) (h ++ os_path_sep ++ t) = t) as ->.
    { rewrite (assoc_L (++)).
      apply drop_app_length'. rewrite length_app. cbn. lia. }
    split.
    + exists (h ++ os_path_sep). split; [by rewrite <- (assoc_L (++))|].
      right. by exists h.
    + intros (q & u & ->).
      specialize (Hmax (h ++ os_path_sep ++ q) u).
      rewrite <- !(assoc_L (++)) in Hmax. specialize (Hmax eq_refl).
      rewrite !length_app in Hmax. cbn in Hmax. lia.
  - apply rfind_None in E. cbn [drop]. split; [|done].
    exists []. split; [done | by left].
Qed.

Section basename.
Context `{Libs}.

(** X15: the base name is the end of the path behind its last [/]: it
    holds no [/], and what stands before it is empty or ends in [/].  The
    writer always joins a file name made this way to [destination]. *)
Theorem os_path_basename_spec (p : Py.str) :
  (∃ head, p = head ++ os_path_basename p
           ∧ (head = [] ∨ ∃ h, head = h ++ os_path_sep))
  ∧ ¬ occurs os_path_sep (os_path_basename p)
  ∧ ∀ destination,
      destination_path (os_path_basename p) destination
      = expand_filepath (os_path_join destination (os_path_basename p)).
Proof.
  destruct (basename_parts p) as [Hhead Hclean].
  split_and!; [done | done |].
  intros destination. unfold destination_path.
  apply PyFacts.contains_false in Hclean. by rewrite Hclean.
Qed.

End basename.

(** ** The file metadata of a URL *)

Lemma get_ftp_filemeta_unbound :
  load_name web_globals "get_ftp_filemeta"
  = raise (NameError "get_ftp_filemeta").
Proof. apply load_name_unbound; vm_compute; reflexivity. Qed.


Section filemeta.
Context `{Libs} `{MoreLibs}.


(** X17: on an answer of the server the result is a [dict] of six entries:
    [url] is the [geturl()] text of the parse, [filename] the base name of
    its path, without any [/], and [remote_size] the text of the
    [Content-Length] header when there is one, the integer -1 when there
    is none. *)
Theorem get_url_filemeta_success (g : gmap string pyval) (url : Py.str)
    (w w1 : world) (p : ParseResult) (r : response) :
  try_parse_url url w = (Ok (Some p), w1) →
  Py.startswith (scheme p) (Py.lit "ftp") = false →
  http_get (meta_request p) = Ok r →
  ∃ d,
    fst (get_url_filemeta g url w) = Ok (Meta d)
    ∧ dom d = list_to_set (C := gset string)
                ["url"; "hostname"; "path"; "username"; "remote_size"; "filename"]
    ∧ d !! "url" = Some (PStr (geturl p))
    ∧ d !! "hostname" = Some (opt_str (hostname p))
    ∧ d !! "path" = Some (PStr (path p))
    ∧ d !! "username" = Some (opt_str (username p))
    ∧ d !! "remote_size"
      = Some (match headers_get r (Py.lit "Content-Length") with
              | Some v => PStr v
              | None => PInt (-1)
              end)
    ∧ d !! "filename" = Some (PStr (os_path_basename (path p)))
    ∧ ¬ occurs os_path_sep (os_path_basename (path p)).
Proof.
  intros Htry Hftp Hget. eexists. split.
  - unfold get_url_filemeta.
    rewrite bind_run, Htry, Hftp. cbv zeta.
    rewrite try_except_run, bind_run, requests_get_run.
    fold (meta_request p). rewrite Hget. reflexivity.
  - split_and!; try (vm_compute; reflexivity).
    apply basename_parts.
Qed.

(** X18: with the globals of the module, a request that raises the builtin
    [ConnectionError] gives [None]; any other exception, those of
    [requests] included, ends in [NameError] on [InvalidURL]. *)
Theorem get_url_filemeta_transport_error (url : Py.str) (w w1 : world)
    (p : ParseResult) (e : exn) :
  try_parse_url url w = (Ok (Some p), w1) →
  Py.startswith (scheme p) (Py.lit "ftp") = false →
  http_get (meta_request p) = Raise e →
  fst (get_url_filemeta web_globals url w)
  = if isinstance e "builtins.ConnectionError" then Ok NoMeta
    else Raise (NameError "InvalidURL").
Proof.
  intros Htry Hftp Hget. unfold get_url_filemeta.
  rewrite bind_run, Htry, Hftp. cbv zeta.
  rewrite try_except_run, bind_run, requests_get_run.
  fold (meta_request p). rewrite Hget.
  run. rewrite ConnectionError_builtin. run. unfold exc_matches. run.
  destruct (isinstance e "builtins.ConnectionError"); [done|].
  rewrite InvalidURL_unbound. by run.
Qed.

(** X19: with the globals of the module an [ftp] URL cannot be served: the
    call raises [NameError] on [get_ftp_filemeta], before any request. *)
Theorem get_url_filemeta_ftp (url : Py.str) (w w1 : world) (p : ParseResult) :
  try_parse_url url w = (Ok (Some p), w1) →
  Py.startswith (scheme p) (Py.lit "ftp") = true →
  get_url_filemeta web_globals url w
  = (Raise (NameError "get_ftp_filemeta"), w1).
Proof.
  intros Htry Hftp. unfold get_url_filemeta.
  rewrite bind_run, Htry, Hftp, bind_run, get_ftp_filemeta_unbound. done.
Qed.

End filemeta.

(** The two examples of the docstring, on a server that sends no
    [Content-Length]. *)
Example get_url_filemeta_docstring :
  (∃ d, fst (@get_url_filemeta Ref.offline RefMore.bare web_globals
               (Py.lit "mozilla.com") Ref.empty_world) = Ok (Meta d)
        ∧ d !! "filename" = Some (PStr [])
        ∧ d !! "hostname" = Some (PStr (Py.lit "mozilla.com"))
        ∧ d !! "path" = Some (PStr [])
        ∧ d !! "remote_size" = Some (PInt (-1))
        ∧ d !! "url" = Some (PStr (Py.lit "http://mozilla.com"))
        ∧ d !! "username" = Some PNone)
  ∧ (∃ d, fst (@get_url_filemeta Ref.offline RefMore.bare web_globals
                 (Py.lit "https://duckduckgo.com/about?q=nlp") Ref.empty_world)
          = Ok (Meta d)
          ∧ d !! "filename" = Some (PStr (Py.lit "about"))
          ∧ d !! "hostname" = Some (PStr (Py.lit "duckduckgo.com"))
          ∧ d !! "path" = Some (PStr (Py.lit "/about"))
          ∧ d !! "remote_size" = Some (PInt (-1))
          ∧ d !! "url" = Some (PStr (Py.lit "https://duckduckgo.com/about?q=nlp"))
          ∧ d !! "username" = Some PNone).
Proof. split; eexists; split_and!; vm_compute; reflexivity. Qed.

(** A server that announces 1234 bytes for [/a/b/data.csv]. *)
Lemma get_url_filemeta_success_witness :
  ∃ d, fst (@get_url_filemeta Ref.offline (RefMore.sized (Py.lit "1234"))
              web_globals (Py.lit "https://example.com/a/b/data.csv")
              Ref.empty_world) = Ok (Meta d)
       ∧ d !! "remote_size" = Some (PStr (Py.lit "1234"))
       ∧ d !! "filename" = Some (PStr (Py.lit "data.csv")).
Proof.
  destruct (@get_url_filemeta_success Ref.offline (RefMore.sized (Py.lit "1234"))
              web_globals (Py.lit "https://example.com/a/b/data.csv")
              Ref.empty_world Ref.empty_world
              {| scheme := Py.lit "https"; netloc := Py.lit "example.com";
                 path := Py.lit "/a/b/data.csv"; params := []; query := [];
                 fragment := [] |}
              (Ref.response_of [] []))
    as (d & Hrun & _ & _ & _ & _ & _ & Hsize & Hname & _).
  - vm_compute. reflexivity.
  - vm_compute. reflexivity.
  - vm_compute. reflexivity.
  - exists d. split_and!; [done | |].
    + rewrite Hsize. vm_compute. reflexivity.
    + rewrite Hname. vm_compute. reflexivity.
Defined.

(** A refused connection, as the builtin exception and as the one of
    [requests]. *)
Lemma get_url_filemeta_transport_error_witness :
  fst (@get_url_filemeta (RefMore.failing (BuiltinConnectionError "refused"))
         RefMore.bare web_globals (Py.lit "https://example.com/a")
         Ref.empty_world) = Ok NoMeta
  ∧ fst (@get_url_filemeta (RefMore.failing (RequestsConnectionError "refused"))
           RefMore.bare web_globals (Py.lit "https://example.com/a")
           Ref.empty_world) = Raise (NameError "InvalidURL").
Proof.
  split.
  - rewrite (@get_url_filemeta_transport_error
               (RefMore.failing (BuiltinConnectionError "refused")) RefMore.bare
               (Py.lit "https://example.com/a") Ref.empty_world Ref.empty_world
               {| scheme := Py.lit "https"; netloc := Py.lit "example.com";
                  path := Py.lit "/a"; params := []; query := [];
                  fragment := [] |}
               (BuiltinConnectionError "refused"));
      vm_compute; reflexivity.
  - rewrite (@get_url_filemeta_transport_error
               (RefMore.failing (RequestsConnectionError "refused")) RefMore.bare
               (Py.lit "https://example.com/a") Ref.empty_world Ref.empty_world
               {| scheme := Py.lit "https"; netloc := Py.lit "example.com";
                  path := Py.lit "/a"; params := []; query := [];
                  fragment := [] |}
               (RequestsConnectionError "refused"));
      vm_compute; reflexivity.
Defined.

(** [ftp://ftp.example.org/pub/file.txt]. *)
Lemma get_url_filemeta_ftp_witness :
  @get_url_filemeta Ref.offline RefMore.bare web_globals
    (Py.lit "ftp://ftp.example.org/pub/file.txt") Ref.empty_world
  = (Raise (NameError "get_ftp_filemeta"), Ref.empty_world).
Proof.
  apply (@get_url_filemeta_ftp Ref.offline RefMore.bare
           (Py.lit "ftp://ftp.example.org/pub/file.txt")
           Ref.empty_world Ref.empty_world
           {| scheme := Py.lit "ftp"; netloc := Py.lit "ftp.example.org";
              path := Py.lit "/pub/file.txt"; params := []; query := [];
              fragment := [] |}).
  - vm_compute. reflexivity.
  - vm_compute. reflexivity.
Defined.

(** ** The functions that read names nothing binds *)

Lemma basestring_unbound :
  load_name web_globals "basestring" = raise (NameError "basestring").
Proof. apply load_name_unbound; vm_compute; reflexivity. Qed.


Lemma load_name_run (g : gmap string pyval) (name : string) (w : world) :
  load_name g name w = (lookup_name g name, w).
Proof.
  unfold load_name, lookup_name. destruct (g !! name); [done|].
  by destruct (builtins !! name).
Qed.

Section unbound.
Context `{Libs} `{MoreLibs}.

(** X20: with the globals of the module [looks_like_url] answers no string:
    every call raises [NameError] on [basestring].  In any namespace a
    [True] answer goes only to a string of fewer than 1024 characters that
    the pattern bound to [cre_url] matches, and the call changes
    nothing. *)
Theorem looks_like_url_spec (url : Py.str) (w : world) :
  looks_like_url web_globals url w = (Raise (NameError "basestring"), w)
  ∧ ∀ g w',
      looks_like_url g url w = (Ok true, w') →
      length url < 1024 ∧ w' = w
      ∧ ∃ cre_url, lookup_name g "cre_url" = Ok cre_url
                   ∧ regex_match cre_url url = Ok true.
Proof.
  split.
  - unfold looks_like_url. by rewrite bind_run, basestring_unbound.
  - intros g w'. unfold looks_like_url. run.
    rewrite load_name_run.
    destruct (lookup_name g "basestring") as [v|e] eqn:Hb; [|done].
    destruct v as [| | |c| |]; cbn [str_isinstance]; run; try done.
    destruct (bool_decide (c ∈ ["builtins.str"; "builtins.object"])) eqn:Hc;
      cbn [negb]; [|done].
    rewrite load_name_run, Hb. cbn [str_isinstance]. run.
    rewrite Hc. cbn [negb].
    destruct (1024 <=? length url) eqn:Hlen; [done|].
    apply Nat.leb_gt in Hlen.
    rewrite load_name_run.
    destruct (lookup_name g "cre_url") as [cre|e]; [|done].
    destruct (regex_match cre url) as [[|]|e] eqn:Hm; cbn [negb]; try done.
    intros [= <-]. split_and!; [done | done |]. by exists cre.
Qed.


End unbound.
